(** * Example items service: validation, persistence mapping and pagination

    A shallow embedding of [apps/example/models.py], [apps/example/serializers.py]
    and [apps/example/views.py].

    - Text is a [string]; one [ascii] stands for one character, the code point
      0 to 255 it encodes, so [String.length] is the character count the
      schema constraints are written against.
    - Python integers are unbounded: [Z].
    - A timestamp is a [Z] (a reading of the wall clock); its [isoformat()]
      rendering is a parameter of the development.
    - The table of [ExampleModel] rows, the primary-key counter and the clock
      are threaded through a small state-and-exception monad [M]. *)

From Stdlib Require Import ZArith List String Ascii Bool Lia QArith DecimalString.
From Stdlib Require Import Permutation Sorted.
Import ListNotations.
Local Open Scope string_scope.
Local Open Scope Z_scope.

(** ** Request payloads *)

(** What the JSON parser hands to the view as [request.data]. *)
#[warnings="-register-all"] Inductive json : Type :=
| JNull
| JBool (b : bool)
| JInt (n : Z)
| JFloat (q : Q)
| JStr (s : string)
| JList (l : list json)
| JObj (o : list (string * json)).

(** [d.get(k)] on a dict kept as an association list with distinct keys. *)
Fixpoint lookup {A : Type} (k : string) (d : list (string * A)) : option A :=
  match d with
  | [] => None
  | (k', v) :: d' => if String.eqb k k' then Some v else lookup k d'
  end.

(** ** Text helpers *)

Module Text.

(** [str(n)] and the [{n}] replacement field of an f-string. *)
Definition str_of_int (n : Z) : string := NilZero.string_of_int (Z.to_int n).

(** The characters [int()] strips from both ends of its argument: tab to
    carriage return, the space, and the two spaces beyond ASCII, next line
    (U+0085) and no-break space (U+00A0).  The separators 0x1C to 0x1F are
    not stripped. *)
Definition is_space (c : ascii) : bool :=
  let n := nat_of_ascii c in
  ((9 <=? n) && (n <=? 13) || (n =? 32) || (n =? 133) || (n =? 160))%nat.

Definition digit_value (c : ascii) : option Z :=
  let n := nat_of_ascii c in
  if ((48 <=? n) && (n <=? 57))%nat then Some (Z.of_nat n - 48) else None.

Fixpoint lstrip (s : string) : string :=
  match s with
  | String c s' => if is_space c then lstrip s' else s
  | EmptyString => EmptyString
  end.

(** Drops trailing spaces: a character is kept when something other than
    spaces follows it. *)
Fixpoint rstrip (s : string) : string :=
  match s with
  | EmptyString => EmptyString
  | String c s' =>
      match rstrip s' with
      | EmptyString => if is_space c then EmptyString else String c EmptyString
      | t => String c t
      end
  end.

(** Digits with single underscores between them; [acc] is the value read so
    far, [count] the number of digits read, [after_digit] whether the
    previous character was a digit. *)
Fixpoint digits (s : string) (acc : Z) (count : nat) (after_digit : bool)
  : option (Z * nat) :=
  match s with
  | EmptyString => if after_digit then Some (acc, count) else None
  | String c s' =>
      match digit_value c with
      | Some d => digits s' (10 * acc + d) (S count) true
      | None =>
          if (Ascii.eqb c "_" && after_digit)%bool
          then digits s' acc count false
          else None
      end
  end.

(** The default of [sys.get_int_max_str_digits()]. *)
Definition int_max_str_digits : nat := 4300.

(** [int(s)] for a [str] argument in base ten: [None] is [ValueError]. *)
Definition int_of_str (s : string) : option Z :=
  let body := rstrip (lstrip s) in
  let '(neg, rest) :=
    match body with
    | String "-" r => (true, r)
    | String "+" r => (false, r)
    | r => (false, r)
    end in
  match digits rest 0 0%nat false with
  | Some (v, count) =>
      if (count <=? int_max_str_digits)%nat
      then Some (if neg then - v else v)
      else None
  | None => None
  end.

(** [s.lower()] on ASCII letters. *)
Definition lower_char (c : ascii) : ascii :=
  let n := nat_of_ascii c in
  if ((65 <=? n) && (n <=? 90))%nat then ascii_of_nat (n + 32) else c.

Fixpoint lower (s : string) : string :=
  match s with
  | EmptyString => EmptyString
  | String c s' => String (lower_char c) (lower s')
  end.

Definition mem (s : string) (l : list string) : bool :=
  existsb (String.eqb s) l.

End Text.

(** ** models.py *)

Module ExampleModel.

(** One row of the table.  [description] is a non-null text column
    ([blank=True] only allows the empty text). *)
Record t : Type := mk {
  id : Z;
  name : string;
  description : string;
  is_active : bool;
  created_at : Z;
  updated_at : Z
}.

End ExampleModel.

(** ** The persistence engine, the clock and exceptions *)

Inductive exn : Type :=
| DoesNotExist
| Http404 (msg : string)
| ValueError (msg : string)
| TypeError (msg : string)
| DatabaseError (msg : string).

(** [rows] is the table in insertion order, [next_pk] the auto-increment
    counter; [clock] lists every reading [timezone.now()] will ever give and
    [ticks] counts the readings taken so far. *)
Record World : Type := mkWorld {
  rows : list ExampleModel.t;
  next_pk : Z;
  clock : nat -> Z;
  ticks : nat
}.

Inductive outcome (A : Type) : Type :=
| Return (a : A)
| Raise (e : exn).
Arguments Return {A} a.
Arguments Raise {A} e.

Definition M (A : Type) : Type := World -> outcome A * World.

Definition ret {A} (a : A) : M A := fun w => (Return a, w).

Definition raise {A} (e : exn) : M A := fun w => (Raise e, w).

Definition bind {A B} (m : M A) (k : A -> M B) : M B :=
  fun w =>
    match m w with
    | (Return a, w') => k a w'
    | (Raise e, w') => (Raise e, w')
    end.

(** [try: m  except ...: h e]; a handler re-raises what it does not catch. *)
Definition try_except {A} (m : M A) (h : exn -> M A) : M A :=
  fun w =>
    match m w with
    | (Return a, w') => (Return a, w')
    | (Raise e, w') => h e w'
    end.

Declare Scope monad_scope.
Delimit Scope monad_scope with monad.
Notation "x <- m ;; k" := (bind m (fun x => k))
  (at level 61, m at next level, right associativity) : monad_scope.
Notation "m ;;; k" := (bind m (fun _ => k))
  (at level 61, right associativity) : monad_scope.
Local Open Scope monad_scope.

(** [timezone.now()]. *)
Definition timezone_now : M Z :=
  fun w => (Return (clock w (ticks w)),
            mkWorld (rows w) (next_pk w) (clock w) (S (ticks w))).

Module objects.

Import ExampleModel.

(** [Meta.ordering = ["-created_at"]]: newest first; rows created at the
    same instant keep their insertion order. *)
Fixpoint insert_desc (r : t) (l : list t) : list t :=
  match l with
  | [] => [r]
  | x :: l' =>
      if created_at x <=? created_at r then r :: l else x :: insert_desc r l'
  end.

Definition ordered (l : list t) : list t := fold_right insert_desc [] l.

(** [ExampleModel.objects.all()], evaluated. *)
Definition all : M (list t) := fun w => (Return (ordered (rows w)), w).

(** A sliced queryset that has not been read yet. *)
Record sliced : Type := limits {
  low : Z;
  high : Z
}.

(** [queryset[start:stop]]: a negative bound is refused at once; nothing is
    read from the table yet. *)
Definition slice (start stop : Z) : M sliced :=
  if (start <? 0) || (stop <? 0)
  then raise (ValueError "Negative indexing is not supported.")
  else ret (limits start stop).

(** The largest offset the engine takes: a signed 64-bit integer. *)
Definition max_offset : Z := 9223372036854775807.

(** Iterating a sliced queryset reads [high - low] rows of the default order
    from place [low] on; the engine refuses an offset beyond [max_offset]. *)
Definition fetch (qs : sliced) : M (list t) :=
  if max_offset <? low qs
  then raise (DatabaseError "datatype mismatch")
  else
    rows_ <- all ;;
    ret (firstn (Z.to_nat (high qs - low qs)) (skipn (Z.to_nat (low qs)) rows_)).

(** [queryset.count()]. *)
Definition count : M Z := fun w => (Return (Z.of_nat (List.length (rows w))), w).

(** [ExampleModel.objects.get(pk=pk)], [pk] being the segment of the URL the
    route hands over: the key field converts it with [int()], and a segment
    [int()] cannot read is a [ValueError]. *)
Definition get (pk : string) : M t :=
  fun w =>
    match Text.int_of_str pk with
    | None => (Raise (ValueError "Field 'id' expected a number"), w)
    | Some k =>
        match find (fun r => id r =? k) (rows w) with
        | Some r => (Return r, w)
        | None => (Raise DoesNotExist, w)
        end
    end.

(** [ExampleModel.objects.create(...)]: [created_at] ([auto_now_add]) and
    [updated_at] ([auto_now]) each take their own clock reading. *)
Definition create (name : string) (description : string) (is_active : bool)
  : M t :=
  c <- timezone_now ;;
  u <- timezone_now ;;
  fun w =>
    let r := mk (next_pk w) name description is_active c u in
    (Return r, mkWorld (rows w ++ [r])%list (next_pk w + 1) (clock w) (ticks w)).

(** [instance.save()] on a loaded instance: [updated_at] is refreshed and
    the row with the instance's primary key is overwritten. *)
Definition save (instance : t) : M t :=
  u <- timezone_now ;;
  fun w =>
    let r := mk (id instance) (name instance) (description instance)
                (is_active instance) (created_at instance) u in
    (Return r,
     mkWorld (map (fun x => if id x =? id r then r else x) (rows w))
             (next_pk w) (clock w) (ticks w)).

(** [instance.delete()]. *)
Definition delete (instance : t) : M unit :=
  fun w =>
    (Return tt,
     mkWorld (filter (fun x => negb (id x =? id instance)) (rows w))
             (next_pk w) (clock w) (ticks w)).

End objects.

(** ** serializers.py *)

(** One entry of [ValidationError.errors()]: the error type, the field it is
    located at, the message and the offending input. *)
Record ErrorDetails : Type := mkError {
  type_ : string;
  loc : string;
  msg : string;
  input : json
}.

(** Field validators of the schema library, in its default (lax) mode.  The
    left summand is the error of the field. *)
Module Field.

Definition missing (f : string) (kwargs : list (string * json)) : ErrorDetails :=
  mkError "missing" f "Field required" (JObj kwargs).

(** [str]: only text is accepted; numbers are not converted. *)
Definition str (f : string) (v : json) : ErrorDetails + string :=
  match v with
  | JStr s => inr s
  | _ => inl (mkError "string_type" f "Input should be a valid string" v)
  end.

(** [str] with [min_length=1, max_length=255]; the length is taken on the
    text as given. *)
Definition str_1_255 (f : string) (v : json) : ErrorDetails + string :=
  match str f v with
  | inl e => inl e
  | inr s =>
      if (String.length s <? 1)%nat
      then inl (mkError "string_too_short" f
                  "String should have at least 1 character" v)
      else if (255 <? String.length s)%nat
      then inl (mkError "string_too_long" f
                  "String should have at most 255 characters" v)
      else inr s
  end.

Definition true_words : list string := ["1"; "on"; "t"; "true"; "y"; "yes"].
Definition false_words : list string := ["0"; "off"; "f"; "false"; "n"; "no"].

(** [bool]: booleans, the numbers 0 and 1 and a few words are accepted.  A
    number with a fractional part or outside the signed 64-bit range is
    refused as not being a boolean at all, any other number or word as one
    that cannot be read. *)
Definition bool (f : string) (v : json) : ErrorDetails + bool :=
  let unparsable :=
    mkError "bool_parsing" f
      "Input should be a valid boolean, unable to interpret input" v in
  let mistyped := mkError "bool_type" f "Input should be a valid boolean" v in
  match v with
  | JBool b => inr b
  | JInt n =>
      if n =? 0 then inr false
      else if n =? 1 then inr true
      else if (- 2 ^ 63 <=? n) && (n <? 2 ^ 63) then inl unparsable
      else inl mistyped
  | JFloat q =>
      if Qeq_bool q 0 then inr false
      else if Qeq_bool q 1 then inr true
      else if (Qnum q mod Zpos (Qden q) =? 0)
              && (- 2 ^ 63 <? Qnum q / Zpos (Qden q))
              && (Qnum q / Zpos (Qden q) <? 2 ^ 63)
      then inl unparsable
      else inl mistyped
  | JStr s =>
      if Text.mem (Text.lower s) false_words then inr false
      else if Text.mem (Text.lower s) true_words then inr true
      else inl unparsable
  | _ => inl mistyped
  end.

(** [Optional[T] = Field(None, ...)]: an absent key and [null] both give
    [None]; anything else goes through the validator of [T]. *)
Definition optional {A} (validator : string -> json -> ErrorDetails + A)
    (f : string) (kwargs : list (string * json)) : ErrorDetails + option A :=
  match lookup f kwargs with
  | None => inr None
  | Some JNull => inr None
  | Some v =>
      match validator f v with
      | inl e => inl e
      | inr a => inr (Some a)
      end
  end.

(** [T = Field(..., ...)]: the key must be there. *)
Definition required {A} (validator : string -> json -> ErrorDetails + A)
    (f : string) (kwargs : list (string * json)) : ErrorDetails + A :=
  match lookup f kwargs with
  | None => inl (missing f kwargs)
  | Some v => validator f v
  end.

(** [T = Field(default, ...)]: an absent key gives the default. *)
Definition defaulted {A} (validator : string -> json -> ErrorDetails + A)
    (default : A) (f : string) (kwargs : list (string * json))
  : ErrorDetails + A :=
  match lookup f kwargs with
  | None => inr default
  | Some v => validator f v
  end.

Definition errors {A} (r : ErrorDetails + A) : list ErrorDetails :=
  match r with
  | inl e => [e]
  | inr _ => []
  end.

End Field.

Module ExampleCreateRequest.

Record t : Type := mk {
  name : string;
  description : option string;
  is_active : bool
}.

(** The constructor called on the unpacked payload: the validated model, or the errors of
    the [ValidationError] in field order.  Unknown keys are ignored. *)
Definition init (kwargs : list (string * json)) : list ErrorDetails + t :=
  let n := Field.required Field.str_1_255 "name" kwargs in
  let d := Field.optional Field.str "description" kwargs in
  let a := Field.defaulted Field.bool true "is_active" kwargs in
  match n, d, a with
  | inr n', inr d', inr a' => inr (mk n' d' a')
  | _, _, _ => inl (Field.errors n ++ Field.errors d ++ Field.errors a)%list
  end.

End ExampleCreateRequest.

Module ExampleUpdateRequest.

Record t : Type := mk {
  name : option string;
  description : option string;
  is_active : option bool
}.

(** The constructor called on the unpacked payload. *)
Definition init (kwargs : list (string * json)) : list ErrorDetails + t :=
  let n := Field.optional Field.str_1_255 "name" kwargs in
  let d := Field.optional Field.str "description" kwargs in
  let a := Field.optional Field.bool "is_active" kwargs in
  match n, d, a with
  | inr n', inr d', inr a' => inr (mk n' d' a')
  | _, _, _ => inl (Field.errors n ++ Field.errors d ++ Field.errors a)%list
  end.

End ExampleUpdateRequest.

(** [x or ""] on text: the empty text is falsy. *)
Definition or_empty (x : string) : string :=
  if String.eqb x "" then "" else x.

(** [x or ""] on optional text: [None] is falsy as well. *)
Definition opt_or_empty (x : option string) : string :=
  match x with
  | None => ""
  | Some s => or_empty s
  end.

Module ExampleResponse.

Record t : Type := mk {
  id : Z;
  name : string;
  description : string;
  is_active : bool;
  created_at : string;
  updated_at : string
}.

Section FromModel.

(** [datetime.isoformat()]. *)
Variable isoformat : Z -> string.

Definition from_model (instance : ExampleModel.t) : t :=
  mk (ExampleModel.id instance)
     (ExampleModel.name instance)
     (or_empty (ExampleModel.description instance))
     (ExampleModel.is_active instance)
     (isoformat (ExampleModel.created_at instance))
     (isoformat (ExampleModel.updated_at instance)).

End FromModel.

End ExampleResponse.

Module ExampleListResponse.

Record t : Type := mk {
  count : Z;
  next : option string;
  previous : option string;
  results : list ExampleResponse.t
}.

End ExampleListResponse.

(** ** views.py *)

Module status.
Definition HTTP_200_OK : Z := 200.
Definition HTTP_201_CREATED : Z := 201.
Definition HTTP_204_NO_CONTENT : Z := 204.
Definition HTTP_400_BAD_REQUEST : Z := 400.
Definition HTTP_404_NOT_FOUND : Z := 404.
Definition HTTP_500_INTERNAL_SERVER_ERROR : Z := 500.
End status.

Module Request.

(** What the views read from a request.  [uri] is scheme, host and path;
    [QUERY_STRING] the raw query string; [GET] its parameters in order of
    appearance; [data] the parsed body.  No link between [QUERY_STRING] and
    [GET] is imposed: every real request is covered. *)
Record t : Type := mk {
  uri : string;
  QUERY_STRING : string;
  GET : list (string * string);
  data : json
}.

(** [request.build_absolute_uri()]: the full URI, with the query string
    when there is one. *)
Definition build_absolute_uri (request : t) : string :=
  if String.eqb (QUERY_STRING request) ""
  then uri request
  else uri request ++ "?" ++ QUERY_STRING request.

End Request.

Module QueryDict.

(** [q.get(key, default)]: the last value given for the key. *)
Definition get (q : list (string * string)) (key : string) (default : Z)
  : string + Z :=
  match lookup key (rev q) with
  | Some v => inl v
  | None => inr default
  end.

End QueryDict.

(** [int(x)] for [x] a text or an integer. *)
Definition int (x : string + Z) : M Z :=
  match x with
  | inr n => ret n
  | inl s =>
      match Text.int_of_str s with
      | Some n => ret n
      | None => raise (ValueError "invalid literal for int() with base 10")
      end
  end.

(** Keyword unpacking of [request.data] needs a mapping. *)
Definition unpack (data : json) : M (list (string * json)) :=
  match data with
  | JObj kwargs => ret kwargs
  | _ => raise (TypeError "argument after ** must be a mapping")
  end.

Inductive Body : Type :=
| Item (item : ExampleResponse.t)
| Page (page : ExampleListResponse.t)
| Errors (validation_errors : list ErrorDetails)
| Empty.

Module Response.

(** [Response(data, status=...)]; the status defaults to 200. *)
Record t : Type := mk {
  data : Body;
  status_code : Z
}.

End Response.

Module ExampleViewSet.

Import status.

Section Views.

Variable isoformat : Z -> string.

Definition page_size : Z := 20.

(** [try: objects.get(pk=pk)  except DoesNotExist: raise Http404(...)]. *)
Definition get_or_404 (pk : string) : M ExampleModel.t :=
  try_except (objects.get pk)
    (fun e =>
       match e with
       | DoesNotExist => raise (Http404 "Example item not found")
       | _ => raise e
       end).

(** [ExampleViewSet.list]. *)
Definition list_ (request : Request.t) : M Response.t :=
  page <- int (QueryDict.get (Request.GET request) "page" 1) ;;
  let start := (page - 1) * page_size in
  let end_ := start + page_size in
  items <- objects.slice start end_ ;;
  total_count <- objects.count ;;
  fetched <- objects.fetch items ;;
  let results := map (ExampleResponse.from_model isoformat) fetched in
  let next_url :=
    if end_ <? total_count
    then Some (Request.build_absolute_uri request
                 ++ "?page=" ++ Text.str_of_int (page + 1))
    else None in
  let previous_url :=
    if 1 <? page
    then Some (Request.build_absolute_uri request
                 ++ "?page=" ++ Text.str_of_int (page - 1))
    else None in
  ret (Response.mk
         (Page (ExampleListResponse.mk total_count next_url previous_url
                  results))
         HTTP_200_OK).

(** [ExampleViewSet.create]. *)
Definition create (request : Request.t) : M Response.t :=
  kwargs <- unpack (Request.data request) ;;
  match ExampleCreateRequest.init kwargs with
  | inl errors => ret (Response.mk (Errors errors) HTTP_400_BAD_REQUEST)
  | inr validated_data =>
      instance <- objects.create
                    (ExampleCreateRequest.name validated_data)
                    (opt_or_empty
                       (ExampleCreateRequest.description validated_data))
                    (ExampleCreateRequest.is_active validated_data) ;;
      ret (Response.mk
             (Item (ExampleResponse.from_model isoformat instance))
             HTTP_201_CREATED)
  end.

(** [ExampleViewSet.retrieve]. *)
Definition retrieve (request : Request.t) (pk : string) : M Response.t :=
  instance <- get_or_404 pk ;;
  ret (Response.mk
         (Item (ExampleResponse.from_model isoformat instance))
         HTTP_200_OK).

(** The three conditional assignments of [update]. *)
Definition assign (instance : ExampleModel.t)
    (validated_data : ExampleUpdateRequest.t) : ExampleModel.t :=
  ExampleModel.mk
    (ExampleModel.id instance)
    (match ExampleUpdateRequest.name validated_data with
     | Some n => n
     | None => ExampleModel.name instance
     end)
    (match ExampleUpdateRequest.description validated_data with
     | Some d => d
     | None => ExampleModel.description instance
     end)
    (match ExampleUpdateRequest.is_active validated_data with
     | Some a => a
     | None => ExampleModel.is_active instance
     end)
    (ExampleModel.created_at instance)
    (ExampleModel.updated_at instance).

(** [ExampleViewSet.update]. *)
Definition update (request : Request.t) (pk : string) : M Response.t :=
  instance <- get_or_404 pk ;;
  kwargs <- unpack (Request.data request) ;;
  match ExampleUpdateRequest.init kwargs with
  | inl errors => ret (Response.mk (Errors errors) HTTP_400_BAD_REQUEST)
  | inr validated_data =>
      saved <- objects.save (assign instance validated_data) ;;
      ret (Response.mk
             (Item (ExampleResponse.from_model isoformat saved))
             HTTP_200_OK)
  end.

(** [ExampleViewSet.destroy]. *)
Definition destroy (request : Request.t) (pk : string) : M Response.t :=
  instance <- get_or_404 pk ;;
  objects.delete instance ;;;
  ret (Response.mk Empty HTTP_204_NO_CONTENT).

End Views.

End ExampleViewSet.

(** The status the client sees: the framework answers [Http404] with 404 and
    any other exception that leaves the view with a server error. *)
Definition http_status (o : outcome Response.t) : Z :=
  match o with
  | Return r => Response.status_code r
  | Raise (Http404 _) => status.HTTP_404_NOT_FOUND
  | Raise _ => status.HTTP_500_INTERNAL_SERVER_ERROR
  end.

(** ** Vocabulary of the statements *)

(** Whether a row with this primary key is stored
    ([objects.filter(pk=pk).exists()]). *)
Definition stored (pk : Z) (w : World) : bool :=
  existsb (fun r => ExampleModel.id r =? pk) (rows w).

(** The page a request asks for, when [int()] can read it. *)
Definition requested_page (request : Request.t) : option Z :=
  match QueryDict.get (Request.GET request) "page" 1 with
  | inr n => Some n
  | inl s => Text.int_of_str s
  end.

(** A payload is accepted by the Create schema. *)
Definition create_accepts (kwargs : list (string * json)) : Prop :=
  exists v, ExampleCreateRequest.init kwargs = inr v.

(** What the Create schema asks of [is_active] when it is given. *)
Definition boolean_like (v : json) : bool :=
  match v with
  | JBool _ => true
  | JInt n => (n =? 0) || (n =? 1)
  | JFloat q => Qeq_bool q 0 || Qeq_bool q 1
  | JStr s =>
      Text.mem (Text.lower s) Field.false_words
      || Text.mem (Text.lower s) Field.true_words
  | _ => false
  end.

(** What the Create schema asks of [description] when it is given. *)
Definition text_or_null (v : json) : bool :=
  match v with
  | JNull | JStr _ => true
  | _ => false
  end.

(** The Create schema as the specification words it: [name] is present and,
    once trimmed, has between 1 and 255 characters. *)
Definition spec_create_accepts (kwargs : list (string * json)) : Prop :=
  exists s,
    lookup "name" kwargs = Some (JStr s) /\
    (1 <= String.length (Text.rstrip (Text.lstrip s)) <= 255)%nat.


(** A payload is accepted by the Update schema. *)
Definition update_accepts (kwargs : list (string * json)) : Prop :=
  exists v, ExampleUpdateRequest.init kwargs = inr v.

(** A text of 1 to 255 characters. *)
Definition name_like (v : json) : bool :=
  match v with
  | JStr s => ((1 <=? String.length s) && (String.length s <=? 255))%nat
  | _ => false
  end.

(** Null, or what [p] asks for. *)
Definition null_or (p : json -> bool) (v : json) : bool :=
  match v with
  | JNull => true
  | _ => p v
  end.

(** The primary keys in the table, in row order. *)
Definition keys (w : World) : list Z := map ExampleModel.id (rows w).

Fixpoint distinct (l : list Z) : bool :=
  match l with
  | [] => true
  | k :: l' => negb (existsb (Z.eqb k) l') && distinct l'
  end.

(** Primary keys are unique and were all handed out by the counter. *)
Definition well_keyed (w : World) : bool :=
  distinct (keys w) && forallb (fun k => k <? next_pk w) (keys w).

(** The clock never runs backwards. *)
Definition monotone (w : World) : Prop :=
  forall i j : nat, (i <= j)%nat -> clock w i <= clock w j.

(** Every row was created no later than it was last saved, and last saved no
    later than the next clock reading. *)
Definition in_time (w : World) : bool :=
  forallb
    (fun r =>
       (ExampleModel.created_at r <=? ExampleModel.updated_at r)
       && (ExampleModel.updated_at r <=? clock w (ticks w)))
    (rows w).

(** The default order: a row comes before the rows created no later. *)
Definition newer_first (a b : ExampleModel.t) : Prop :=
  ExampleModel.created_at b <= ExampleModel.created_at a.

(** ** Sample data *)

Module Sample.

Definition isoformat (t : Z) : string := "T" ++ Text.str_of_int t.

Definition row (n : nat) : ExampleModel.t :=
  ExampleModel.mk (Z.of_nat n) ("item " ++ Text.str_of_int (Z.of_nat n))
    "sample" true (Z.of_nat n) (Z.of_nat n).

(** [n] rows with keys 1..n, created at the instants 1..n, and a clock
    that then reads [at_], [at_ + 1], ... *)
Definition world (n : nat) (at_ : Z) : World :=
  mkWorld (map row (seq 1 n)) (Z.of_nat n + 1) (fun k => at_ + Z.of_nat k) 0.

Definition request (query : string) (GET : list (string * string))
    (data : json) : Request.t :=
  Request.mk "http://testserver/examples/" query GET data.

Fixpoint zeros (n : nat) : string :=
  match n with
  | O => EmptyString
  | S n' => String "0" (zeros n')
  end.

(** The decimal numeral of 10 ^ 4300: a key of 4301 digits. *)
Definition huge_key : string := String "1" (zeros 4300).

End Sample.

(** ** Lookups in the table *)

Section Table.

Import ExampleModel.

Lemma find_absent (pk : Z) (l : list t) :
  existsb (fun r => id r =? pk) l = false ->
  find (fun r => id r =? pk) l = None.
Proof.
  induction l as [|x l IH]; simpl; [reflexivity|].
  destruct (id x =? pk); simpl; [discriminate | exact IH].
Qed.

Lemma find_key (pk : Z) (l : list t) (r : t) :
  find (fun x => id x =? pk) l = Some r -> id r = pk.
Proof.
  intros H. apply find_some in H. destruct H as [_ H].
  now apply Z.eqb_eq.
Qed.

(** Overwriting the rows under a key makes the lookup return the new row. *)
Lemma find_overwritten (pk : Z) (l : list t) (r r' : t) :
  find (fun x => id x =? pk) l = Some r ->
  id r' = pk ->
  find (fun x => id x =? pk)
       (map (fun x => if id x =? id r' then r' else x) l) = Some r'.
Proof.
  intros Hfind Hid. rewrite Hid.
  induction l as [|x l IH]; simpl in *; [discriminate|].
  destruct (id x =? pk) eqn:E.
  - rewrite Hid, Z.eqb_refl. reflexivity.
  - rewrite E. auto.
Qed.

Lemma length_insert_desc (r : t) (l : list t) :
  List.length (objects.insert_desc r l) = S (List.length l).
Proof.
  induction l as [|x l IH]; simpl; [reflexivity|].
  destruct (created_at x <=? created_at r); simpl; congruence.
Qed.

Lemma length_ordered (l : list t) :
  List.length (objects.ordered l) = List.length l.
Proof.
  induction l as [|x l IH]; simpl; [reflexivity|].
  rewrite length_insert_desc. congruence.
Qed.

End Table.

Lemma or_empty_id (s : string) : or_empty s = s.
Proof.
  unfold or_empty. destruct (String.eqb_spec s ""); congruence.
Qed.

(** ** The store lookup shared by retrieve, update and destroy *)

Lemma get_found pk w r :
  objects.get pk w = (Return r, w) ->
  Text.int_of_str pk = Some (ExampleModel.id r)
  /\ find (fun x => ExampleModel.id x =? ExampleModel.id r) (rows w) = Some r.
Proof.
  unfold objects.get.
  destruct (Text.int_of_str pk) as [k|]; [|discriminate].
  destruct (find (fun x => ExampleModel.id x =? k) (rows w)) as [r'|] eqn:E;
    intros H; inversion H; subst r'.
  pose proof (find_key _ _ _ E) as Hid. subst k. auto.
Qed.

Lemma get_or_404_found pk w r :
  objects.get pk w = (Return r, w) ->
  ExampleViewSet.get_or_404 pk w = (Return r, w).
Proof.
  intros H. unfold ExampleViewSet.get_or_404, try_except. now rewrite H.
Qed.

Lemma get_or_404_missing pk k w :
  Text.int_of_str pk = Some k ->
  stored k w = false ->
  ExampleViewSet.get_or_404 pk w = (Raise (Http404 "Example item not found"), w).
Proof.
  intros Hk H. unfold ExampleViewSet.get_or_404, try_except, objects.get.
  rewrite Hk, (find_absent _ _ H). reflexivity.
Qed.

Lemma get_or_404_unreadable pk w :
  Text.int_of_str pk = None ->
  ExampleViewSet.get_or_404 pk w
  = (Raise (ValueError "Field 'id' expected a number"), w).
Proof.
  intros Hk. unfold ExampleViewSet.get_or_404, try_except, objects.get.
  rewrite Hk. reflexivity.
Qed.

(** ** Not-found paths *)

(** A key that is not a number, and the numeral of 10 ^ 4300, which [int()]
    refuses for its length: neither is stored, yet Update ends with a
    [ValueError], answered with a server error and not with 404. *)
Lemma update_unreadable_key_raises :
  let w := Sample.world 2 100 in
  let request := Sample.request "" [] (JObj [("name", JStr "renamed")]) in
  ExampleViewSet.update Sample.isoformat request "abc" w
    = (Raise (ValueError "Field 'id' expected a number"), w)
  /\ http_status (fst (ExampleViewSet.update Sample.isoformat request "abc" w))
     <> status.HTTP_404_NOT_FOUND
  /\ Text.digits Sample.huge_key 0 0%nat false = Some (10 ^ 4300, 4301%nat)
  /\ stored (10 ^ 4300) w = false
  /\ ExampleViewSet.update Sample.isoformat request Sample.huge_key w
    = (Raise (ValueError "Field 'id' expected a number"), w)
  /\ http_status
       (fst (ExampleViewSet.update Sample.isoformat request Sample.huge_key w))
     <> status.HTTP_404_NOT_FOUND.
Proof.
  intros w request.
  assert (Hhuge : Text.int_of_str Sample.huge_key = None)
    by (vm_compute; reflexivity).
  assert (Eabc : ExampleViewSet.update Sample.isoformat request "abc" w
                 = (Raise (ValueError "Field 'id' expected a number"), w)).
  { unfold ExampleViewSet.update, bind.
    rewrite (get_or_404_unreadable "abc" w) by reflexivity. reflexivity. }
  assert (Ehuge : ExampleViewSet.update Sample.isoformat request
                    Sample.huge_key w
                  = (Raise (ValueError "Field 'id' expected a number"), w)).
  { unfold ExampleViewSet.update, bind.
    rewrite (get_or_404_unreadable Sample.huge_key w Hhuge). reflexivity. }
  rewrite Eabc, Ehuge.
  repeat split; try (vm_compute; reflexivity);
    cbn [fst http_status]; unfold status.HTTP_500_INTERNAL_SERVER_ERROR,
      status.HTTP_404_NOT_FOUND; discriminate.
Qed.

(** C1, as the code has it. Update on a key that [int()] reads as an integer
    with no stored record raises [Http404], answered with status 404,
    whatever the payload is (well-formed or not, valid for the Update schema
    or not): the payload is not looked at, and store, key counter and clock
    are left as they were. *)
Theorem update_missing_is_404 :
  forall isoformat request pk k w,
    Text.int_of_str pk = Some k ->
    stored k w = false ->
    ExampleViewSet.update isoformat request pk w
      = (Raise (Http404 "Example item not found"), w)
    /\ http_status (fst (ExampleViewSet.update isoformat request pk w))
       = status.HTTP_404_NOT_FOUND.
Proof.
  intros iso request pk k w Hk H.
  assert (E : ExampleViewSet.update iso request pk w
              = (Raise (Http404 "Example item not found"), w)).
  { unfold ExampleViewSet.update, bind.
    now rewrite (get_or_404_missing _ _ _ Hk H). }
  rewrite E. split; reflexivity.
Qed.

(** The payload breaks the Update schema (an empty [name]) and key 999 is
    not stored. *)
Lemma update_missing_is_404_witness :
  let request := Sample.request "" [] (JObj [("name", JStr "")]) in
  let w := Sample.world 2 100 in
  (exists errors,
      ExampleUpdateRequest.init [("name", JStr "")] = inl errors) /\
  ExampleViewSet.update Sample.isoformat request "999" w
    = (Raise (Http404 "Example item not found"), w).
Proof.
  split.
  - eexists. reflexivity.
  - apply (update_missing_is_404 Sample.isoformat
             (Sample.request "" [] (JObj [("name", JStr "")])) "999" 999
             (Sample.world 2 100)).
    + reflexivity.
    + reflexivity.
Defined.

(** The same two keys given to Destroy: a [ValueError], answered with a
    server error and not with 404. *)
Lemma destroy_unreadable_key_raises :
  let w := Sample.world 2 100 in
  let request := Sample.request "" [] JNull in
  ExampleViewSet.destroy request "abc" w
    = (Raise (ValueError "Field 'id' expected a number"), w)
  /\ http_status (fst (ExampleViewSet.destroy request "abc" w))
     <> status.HTTP_404_NOT_FOUND
  /\ Text.digits Sample.huge_key 0 0%nat false = Some (10 ^ 4300, 4301%nat)
  /\ stored (10 ^ 4300) w = false
  /\ ExampleViewSet.destroy request Sample.huge_key w
    = (Raise (ValueError "Field 'id' expected a number"), w)
  /\ http_status (fst (ExampleViewSet.destroy request Sample.huge_key w))
     <> status.HTTP_404_NOT_FOUND.
Proof.
  intros w request.
  assert (Hhuge : Text.int_of_str Sample.huge_key = None)
    by (vm_compute; reflexivity).
  assert (Eabc : ExampleViewSet.destroy request "abc" w
                 = (Raise (ValueError "Field 'id' expected a number"), w)).
  { unfold ExampleViewSet.destroy, bind.
    rewrite (get_or_404_unreadable "abc" w) by reflexivity. reflexivity. }
  assert (Ehuge : ExampleViewSet.destroy request Sample.huge_key w
                  = (Raise (ValueError "Field 'id' expected a number"), w)).
  { unfold ExampleViewSet.destroy, bind.
    rewrite (get_or_404_unreadable Sample.huge_key w Hhuge). reflexivity. }
  rewrite Eabc, Ehuge.
  repeat split; try (vm_compute; reflexivity);
    cbn [fst http_status]; unfold status.HTTP_500_INTERNAL_SERVER_ERROR,
      status.HTTP_404_NOT_FOUND; discriminate.
Qed.

(** C9, as the code has it. Destroy on a key that [int()] reads as an
    integer with no stored record raises [Http404], answered with status 404
    and not with the 204 of a deletion; every stored row, and so their
    number, is left as it was. *)
Theorem destroy_missing_is_404 :
  forall request pk k w,
    Text.int_of_str pk = Some k ->
    stored k w = false ->
    ExampleViewSet.destroy request pk w
      = (Raise (Http404 "Example item not found"), w)
    /\ http_status (fst (ExampleViewSet.destroy request pk w))
       = status.HTTP_404_NOT_FOUND
    /\ rows (snd (ExampleViewSet.destroy request pk w)) = rows w.
Proof.
  intros request pk k w Hk H.
  assert (E : ExampleViewSet.destroy request pk w
              = (Raise (Http404 "Example item not found"), w)).
  { unfold ExampleViewSet.destroy, bind.
    now rewrite (get_or_404_missing _ _ _ Hk H). }
  rewrite E. repeat split; reflexivity.
Qed.

Lemma destroy_missing_is_404_witness :
  let request := Sample.request "" [] JNull in
  let w := Sample.world 2 100 in
  ExampleViewSet.destroy request "999" w
    = (Raise (Http404 "Example item not found"), w).
Proof.
  apply (destroy_missing_is_404 (Sample.request "" [] JNull) "999" 999
           (Sample.world 2 100)).
  - reflexivity.
  - reflexivity.
Defined.

(** ** The Create schema *)

Lemma str_inr f v s : Field.str f v = inr s -> v = JStr s.
Proof. destruct v; simpl; intros H; inversion H; reflexivity. Qed.

Lemma str_1_255_inr f v s :
  Field.str_1_255 f v = inr s <->
  v = JStr s /\ (1 <= String.length s <= 255)%nat.
Proof.
  unfold Field.str_1_255. split.
  - destruct (Field.str f v) as [e|s'] eqn:E; [discriminate|].
    apply str_inr in E. subst v.
    destruct (Nat.ltb_spec (String.length s') 1); [discriminate|].
    destruct (Nat.ltb_spec 255 (String.length s')); [discriminate|].
    intros H'. inversion H'. subst. split; [reflexivity | lia].
  - intros [-> Hlen]. simpl.
    destruct (Nat.ltb_spec (String.length s) 1); [lia|].
    destruct (Nat.ltb_spec 255 (String.length s)); [lia|].
    reflexivity.
Qed.

Lemma bool_inr_like f v :
  (exists b, Field.bool f v = inr b) <-> boolean_like v = true.
Proof.
  unfold Field.bool, boolean_like.
  destruct v as [ |b|n|q|s|l|o]; cbv beta iota zeta;
    try (split; [intros [b' H]; discriminate | discriminate]).
  - split; [reflexivity | eauto].
  - destruct (n =? 0); [split; [reflexivity | eauto]|].
    destruct (n =? 1); [split; [reflexivity | eauto]|].
    destruct ((- 2 ^ 63 <=? n) && (n <? 2 ^ 63));
      (split; [intros [b' H]; discriminate | discriminate]).
  - destruct (Qeq_bool q 0); [split; [reflexivity | eauto]|].
    destruct (Qeq_bool q 1); [split; [reflexivity | eauto]|].
    destruct ((Qnum q mod Z.pos (Qden q) =? 0)
              && (- 2 ^ 63 <? Qnum q / Z.pos (Qden q))
              && (Qnum q / Z.pos (Qden q) <? 2 ^ 63));
      (split; [intros [b' H]; discriminate | discriminate]).
  - destruct (Text.mem (Text.lower s) Field.false_words);
      [split; [reflexivity | eauto]|].
    destruct (Text.mem (Text.lower s) Field.true_words);
      [split; [reflexivity | eauto]|].
    split; [intros [b' H]; discriminate | discriminate].
Qed.

(** What an accepted payload looks like, field by field. *)
Lemma create_init_inr kwargs v :
  ExampleCreateRequest.init kwargs = inr v ->
  Field.required Field.str_1_255 "name" kwargs
    = inr (ExampleCreateRequest.name v) /\
  Field.optional Field.str "description" kwargs
    = inr (ExampleCreateRequest.description v) /\
  Field.defaulted Field.bool true "is_active" kwargs
    = inr (ExampleCreateRequest.is_active v).
Proof.
  unfold ExampleCreateRequest.init.
  destruct (Field.required _ _ _) as [e1|n]; [discriminate|].
  destruct (Field.optional _ _ _) as [e2|d]; [discriminate|].
  destruct (Field.defaulted _ _ _ _) as [e3|a]; [discriminate|].
  intros H. inversion H. simpl. repeat split.
Qed.

Lemma create_init_name_error kwargs e :
  Field.required Field.str_1_255 "name" kwargs = inl e ->
  exists rest, ExampleCreateRequest.init kwargs = inl (e :: rest).
Proof.
  intros H. unfold ExampleCreateRequest.init. rewrite H.
  eexists. simpl. reflexivity.
Qed.

(** C8. Create with the empty text as [name] answers 400 with the error list
    under [validation_errors]; the list has an error located at [name]; no row
    is added to the store, which is left as it was. *)
Theorem create_empty_name_is_400 :
  forall isoformat request kwargs w,
    Request.data request = JObj kwargs ->
    lookup "name" kwargs = Some (JStr "") ->
    exists errors,
      ExampleViewSet.create isoformat request w
        = (Return (Response.mk (Errors errors) status.HTTP_400_BAD_REQUEST), w)
      /\ exists e, In e errors /\ loc e = "name".
Proof.
  intros iso request kwargs w Hdata Hname.
  destruct (create_init_name_error kwargs
              (mkError "string_too_short" "name"
                 "String should have at least 1 character" (JStr "")))
    as [rest Hinit].
  { unfold Field.required. rewrite Hname. reflexivity. }
  exists (mkError "string_too_short" "name"
            "String should have at least 1 character" (JStr "") :: rest).
  split.
  - unfold ExampleViewSet.create, bind. rewrite Hdata. simpl.
    rewrite Hinit. reflexivity.
  - eexists. split; [left; reflexivity | reflexivity].
Qed.

(** The payload of [test_create_example_validation_error]. *)
Lemma create_empty_name_is_400_witness :
  let kwargs := [("name", JStr ""); ("description", JStr "Test description");
                 ("is_active", JBool true)] in
  let w := Sample.world 2 100 in
  exists errors,
    ExampleViewSet.create Sample.isoformat (Sample.request "" [] (JObj kwargs)) w
      = (Return (Response.mk (Errors errors) status.HTTP_400_BAD_REQUEST), w)
    /\ exists e, In e errors /\ loc e = "name".
Proof.
  apply (create_empty_name_is_400 Sample.isoformat
           (Sample.request "" []
              (JObj [("name", JStr ""); ("description", JStr "Test description");
                     ("is_active", JBool true)]))
           [("name", JStr ""); ("description", JStr "Test description");
            ("is_active", JBool true)]
           (Sample.world 2 100)).
  - reflexivity.
  - reflexivity.
Defined.

(** A [name] of blanks only is accepted by the code, though the trimmed text
    is empty. *)
Lemma create_accepts_blank_name :
  create_accepts [("name", JStr "   ")] /\
  ~ spec_create_accepts [("name", JStr "   ")].
Proof.
  split.
  - eexists. reflexivity.
  - intros [s [H Hlen]]. simpl in H. inversion H. subst s.
    vm_compute in Hlen. lia.
Qed.

Lemma required_name_inr kwargs s :
  Field.required Field.str_1_255 "name" kwargs = inr s <->
  lookup "name" kwargs = Some (JStr s) /\ (1 <= String.length s <= 255)%nat.
Proof.
  unfold Field.required. split.
  - destruct (lookup "name" kwargs) as [v|]; [|discriminate].
    intros H. apply str_1_255_inr in H. destruct H as [-> Hlen]. auto.
  - intros [-> Hlen]. now apply str_1_255_inr.
Qed.

Lemma optional_description_inr kwargs :
  (exists d, Field.optional Field.str "description" kwargs = inr d) <->
  (forall v, lookup "description" kwargs = Some v -> text_or_null v = true).
Proof.
  unfold Field.optional. split.
  - intros [d H] v Hv. rewrite Hv in H.
    destruct v; simpl in *; try discriminate; reflexivity.
  - intros H. destruct (lookup "description" kwargs) as [v|]; [|eauto].
    specialize (H v eq_refl).
    destruct v; simpl in *; try discriminate; eauto.
Qed.

Lemma defaulted_is_active_inr kwargs :
  (exists a, Field.defaulted Field.bool true "is_active" kwargs = inr a) <->
  (forall v, lookup "is_active" kwargs = Some v -> boolean_like v = true).
Proof.
  unfold Field.defaulted. split.
  - intros H v Hv. rewrite Hv in H. now apply (bool_inr_like "is_active").
  - intros H. destruct (lookup "is_active" kwargs) as [v|]; [|eauto].
    apply bool_inr_like. now apply H.
Qed.

(** C2, as the code has it. The Create schema accepts a payload exactly when [name] is
    present and is a text of 1 to 255 characters counted as given, without
    trimming; [description], when given, is a text or null; [is_active], when
    given, is a boolean or a value the schema library reads as one. *)
Theorem create_accepts_iff :
  forall kwargs,
    create_accepts kwargs <->
    (exists s, lookup "name" kwargs = Some (JStr s) /\
               (1 <= String.length s <= 255)%nat) /\
    (forall v, lookup "description" kwargs = Some v -> text_or_null v = true) /\
    (forall v, lookup "is_active" kwargs = Some v -> boolean_like v = true).
Proof.
  intros kwargs. unfold create_accepts. split.
  - intros [v H]. apply create_init_inr in H. destruct H as [Hn [Hd Ha]].
    repeat split.
    + exists (ExampleCreateRequest.name v). now apply required_name_inr.
    + apply optional_description_inr. eauto.
    + apply defaulted_is_active_inr. eauto.
  - intros [[s Hn] [Hd Ha]].
    apply required_name_inr in Hn.
    apply optional_description_inr in Hd. destruct Hd as [d Hd].
    apply defaulted_is_active_inr in Ha. destruct Ha as [a Ha].
    exists (ExampleCreateRequest.mk s d a).
    unfold ExampleCreateRequest.init. rewrite Hn, Hd, Ha. reflexivity.
Qed.

(** ** Create round trip *)

(** C6. For every payload the Create schema accepts, Create answers 201 with
    an item whose [name] is the payload's, whose [description] is the
    payload's (the empty text when the payload has none, or null) and whose
    [is_active] is the payload's (true when the payload has none; the boolean
    the schema reads when the payload gives a number or a word). *)
Theorem create_round_trip :
  forall isoformat request kwargs w,
    Request.data request = JObj kwargs ->
    create_accepts kwargs ->
    exists item w',
      ExampleViewSet.create isoformat request w
        = (Return (Response.mk (Item item) status.HTTP_201_CREATED), w')
      /\ lookup "name" kwargs = Some (JStr (ExampleResponse.name item))
      /\ (lookup "description" kwargs = None ->
          ExampleResponse.description item = "")
      /\ (forall d, lookup "description" kwargs = Some (JStr d) ->
                    ExampleResponse.description item = d)
      /\ (lookup "is_active" kwargs = None ->
          ExampleResponse.is_active item = true)
      /\ (forall a, lookup "is_active" kwargs = Some (JBool a) ->
                    ExampleResponse.is_active item = a)
      /\ (lookup "description" kwargs = Some JNull ->
          ExampleResponse.description item = "")
      /\ (forall x, lookup "is_active" kwargs = Some x ->
                    Field.bool "is_active" x
                    = inr (ExampleResponse.is_active item)).
Proof.
  intros iso request kwargs w Hdata [v Hinit].
  destruct (create_init_inr _ _ Hinit) as [Hn [Hd Ha]].
  eexists. eexists. split.
  { unfold ExampleViewSet.create, bind. rewrite Hdata. simpl.
    rewrite Hinit. unfold objects.create, bind, timezone_now. simpl.
    reflexivity. }
  simpl. rewrite or_empty_id.
  repeat split.
  - now apply required_name_inr in Hn.
  - intros Hnone. unfold Field.optional in Hd. rewrite Hnone in Hd.
    inversion Hd. reflexivity.
  - intros d Hsome. unfold Field.optional in Hd. rewrite Hsome in Hd.
    simpl in Hd. inversion Hd. simpl. apply or_empty_id.
  - intros Hnone. unfold Field.defaulted in Ha. rewrite Hnone in Ha.
    now inversion Ha.
  - intros a Hsome. unfold Field.defaulted in Ha. rewrite Hsome in Ha.
    simpl in Ha. now inversion Ha.
  - intros Hnull. unfold Field.optional in Hd. rewrite Hnull in Hd.
    inversion Hd. reflexivity.
  - intros x Hsome. unfold Field.defaulted in Ha. rewrite Hsome in Ha.
    exact Ha.
Qed.

(** The payload of [test_create_example]. *)
Lemma create_round_trip_witness :
  let kwargs := [("name", JStr "New Test Example");
                 ("description", JStr "A newly created test example");
                 ("is_active", JBool true)] in
  exists item w',
    ExampleViewSet.create Sample.isoformat (Sample.request "" [] (JObj kwargs))
        (Sample.world 2 100)
      = (Return (Response.mk (Item item) status.HTTP_201_CREATED), w')
    /\ ExampleResponse.name item = "New Test Example"
    /\ ExampleResponse.description item = "A newly created test example"
    /\ ExampleResponse.is_active item = true.
Proof.
  destruct (create_round_trip Sample.isoformat
              (Sample.request "" []
                 (JObj [("name", JStr "New Test Example");
                        ("description", JStr "A newly created test example");
                        ("is_active", JBool true)]))
              [("name", JStr "New Test Example");
               ("description", JStr "A newly created test example");
               ("is_active", JBool true)]
              (Sample.world 2 100))
    as [item [w' [Hrun [Hn [_ [Hd [_ [Ha _]]]]]]]].
  - reflexivity.
  - eexists. reflexivity.
  - exists item, w'. split; [exact Hrun|]. repeat split.
    + simpl in Hn. now inversion Hn.
    + now apply Hd.
    + now apply Ha.
Defined.

(** ** List and pagination *)

Lemma int_requested_page request w :
  int (QueryDict.get (Request.GET request) "page" 1) w =
  match requested_page request with
  | Some n => (Return n, w)
  | None => (Raise (ValueError "invalid literal for int() with base 10"), w)
  end.
Proof.
  unfold int, requested_page.
  destruct (QueryDict.get _ _ _) as [s|n]; [|reflexivity].
  destruct (Text.int_of_str s); reflexivity.
Qed.

(** The response of List for a page that can be read, is at least 1 and
    starts at an offset the engine takes. *)
Lemma list_page isoformat request w page :
  requested_page request = Some page ->
  1 <= page ->
  (page - 1) * 20 <= objects.max_offset ->
  ExampleViewSet.list_ isoformat request w =
  (Return
     (Response.mk
        (Page
           (ExampleListResponse.mk
              (Z.of_nat (List.length (rows w)))
              (if (page - 1) * 20 + 20 <? Z.of_nat (List.length (rows w))
               then Some (Request.build_absolute_uri request
                            ++ "?page=" ++ Text.str_of_int (page + 1))
               else None)
              (if 1 <? page
               then Some (Request.build_absolute_uri request
                            ++ "?page=" ++ Text.str_of_int (page - 1))
               else None)
              (map (ExampleResponse.from_model isoformat)
                 (firstn 20
                    (skipn (Z.to_nat ((page - 1) * 20))
                       (objects.ordered (rows w)))))))
        status.HTTP_200_OK),
   w).
Proof.
  intros Hpage Hpos Hmax.
  unfold ExampleViewSet.list_, ExampleViewSet.page_size.
  unfold bind at 1. rewrite int_requested_page, Hpage.
  unfold objects.slice.
  replace (((page - 1) * 20 <? 0) || ((page - 1) * 20 + 20 <? 0)) with false
    by (symmetry; apply orb_false_iff; split; apply Z.ltb_ge; lia).
  cbv [bind ret objects.fetch objects.count objects.all objects.low
       objects.high].
  replace (objects.max_offset <? (page - 1) * 20) with false
    by (symmetry; apply Z.ltb_ge; exact Hmax).
  replace (Z.to_nat ((page - 1) * 20 + 20 - (page - 1) * 20)) with 20%nat
    by lia.
  reflexivity.
Qed.

(** Pages 1 and 2 start at the offsets 0 and 20. *)
Lemma near_offset page :
  1 <= page <= 2 -> (page - 1) * 20 <= objects.max_offset.
Proof. unfold objects.max_offset. lia. Qed.

(** Past the last offset the engine takes, reading the page fails. *)
Lemma list_far_page isoformat request w page :
  requested_page request = Some page ->
  objects.max_offset < (page - 1) * 20 ->
  ExampleViewSet.list_ isoformat request w
  = (Raise (DatabaseError "datatype mismatch"), w).
Proof.
  intros Hpage Hfar.
  assert (Hpos : 0 <= (page - 1) * 20)
    by (unfold objects.max_offset in Hfar; lia).
  unfold ExampleViewSet.list_, ExampleViewSet.page_size.
  unfold bind at 1. rewrite int_requested_page, Hpage.
  unfold objects.slice.
  replace (((page - 1) * 20 <? 0) || ((page - 1) * 20 + 20 <? 0)) with false
    by (symmetry; apply orb_false_iff; split; apply Z.ltb_ge; lia).
  cbv [bind ret objects.fetch objects.count objects.all objects.low
       objects.high raise].
  replace (objects.max_offset <? (page - 1) * 20) with true
    by (symmetry; apply Z.ltb_lt; exact Hfar).
  reflexivity.
Qed.

(** Outside that range [int()] or the slice raises [ValueError]. *)
Lemma list_bad_page isoformat request w :
  (forall page, requested_page request = Some page -> page < 1) ->
  exists m, ExampleViewSet.list_ isoformat request w = (Raise (ValueError m), w).
Proof.
  intros H.
  unfold ExampleViewSet.list_, ExampleViewSet.page_size.
  unfold bind at 1. rewrite int_requested_page.
  destruct (requested_page request) as [page|]; [|eauto].
  specialize (H page eq_refl).
  unfold bind at 1. unfold objects.slice.
  replace (((page - 1) * 20 <? 0) || ((page - 1) * 20 + 20 <? 0)) with true
    by (symmetry; apply orb_true_iff; left; apply Z.ltb_lt; lia).
  eexists. reflexivity.
Qed.

(** A [page] that is not a number, a [page] of zero, and a [page] whose
    offset no longer fits 64 bits, end List with an exception and not with a
    200 response. *)
Lemma list_unreadable_page_raises :
  let w := Sample.world 2 100 in
  let abc := Sample.request "page=abc" [("page", "abc")] JNull in
  let zero := Sample.request "page=0" [("page", "0")] JNull in
  let far := Sample.request "page=461168601842738792"
               [("page", "461168601842738792")] JNull in
  ExampleViewSet.list_ Sample.isoformat abc w
    = (Raise (ValueError "invalid literal for int() with base 10"), w)
  /\ http_status (fst (ExampleViewSet.list_ Sample.isoformat abc w)) <> 200
  /\ ExampleViewSet.list_ Sample.isoformat zero w
    = (Raise (ValueError "Negative indexing is not supported."), w)
  /\ http_status (fst (ExampleViewSet.list_ Sample.isoformat zero w)) <> 200
  /\ ExampleViewSet.list_ Sample.isoformat far w
    = (Raise (DatabaseError "datatype mismatch"), w)
  /\ http_status (fst (ExampleViewSet.list_ Sample.isoformat far w)) <> 200.
Proof.
  repeat split; try reflexivity; vm_compute; discriminate.
Qed.

(** C3, as the code has it. For every store contents and every request
    whose [page] parameter is absent or is read by [int()] as an integer of
    at least 1 whose offset, 20 times the page before, fits a signed 64-bit
    integer, List answers 200 with a list body: [count] is the number of
    stored rows and [results] holds at most 20 items, none beyond the stored
    rows; the store is left as it was. *)
Theorem list_is_200 :
  forall isoformat request w page,
    requested_page request = Some page ->
    1 <= page ->
    (page - 1) * 20 <= objects.max_offset ->
    exists body,
      ExampleViewSet.list_ isoformat request w
        = (Return (Response.mk (Page body) status.HTTP_200_OK), w)
      /\ http_status (fst (ExampleViewSet.list_ isoformat request w)) = 200
      /\ ExampleListResponse.count body = Z.of_nat (List.length (rows w))
      /\ (List.length (ExampleListResponse.results body) <= 20)%nat
      /\ (List.length (ExampleListResponse.results body)
          <= List.length (rows w))%nat.
Proof.
  intros iso request w page Hpage Hpos Hmax.
  eexists. rewrite (list_page iso request w page Hpage Hpos Hmax).
  split; [reflexivity|].
  cbn [fst http_status Response.status_code ExampleListResponse.count
       ExampleListResponse.results].
  rewrite length_map, length_firstn, length_skipn, length_ordered.
  repeat split; try reflexivity; lia.
Qed.

(** A request without a [page] parameter, as in [test_list_examples]. *)
Lemma list_is_200_witness :
  exists body,
    ExampleViewSet.list_ Sample.isoformat (Sample.request "" [] JNull)
        (Sample.world 2 100)
      = (Return (Response.mk (Page body) status.HTTP_200_OK),
         Sample.world 2 100)
    /\ ExampleListResponse.count body = 2.
Proof.
  destruct (list_is_200 Sample.isoformat (Sample.request "" [] JNull)
              (Sample.world 2 100) 1)
    as [body [Hrun [_ [Hcount _]]]].
  - reflexivity.
  - lia.
  - vm_compute. discriminate.
  - exists body. split; [exact Hrun | exact Hcount].
Defined.

(** C4. With 25 stored rows, page 1 holds the first 20 rows of the default
    order, a [next] link and no [previous] link; page 2 holds the 5 rows
    left, no [next] link and a [previous] link; [count] is 25 on both. *)
Theorem list_of_25_rows :
  forall isoformat first second w,
    List.length (rows w) = 25%nat ->
    requested_page first = Some 1 ->
    requested_page second = Some 2 ->
    exists p1 p2,
      ExampleViewSet.list_ isoformat first w
        = (Return (Response.mk (Page p1) status.HTTP_200_OK), w)
      /\ ExampleViewSet.list_ isoformat second w
        = (Return (Response.mk (Page p2) status.HTTP_200_OK), w)
      /\ List.length (ExampleListResponse.results p1) = 20%nat
      /\ ExampleListResponse.next p1 <> None
      /\ ExampleListResponse.previous p1 = None
      /\ ExampleListResponse.count p1 = 25
      /\ List.length (ExampleListResponse.results p2) = 5%nat
      /\ ExampleListResponse.next p2 = None
      /\ ExampleListResponse.previous p2 <> None
      /\ ExampleListResponse.count p2 = 25
      /\ (ExampleListResponse.results p1 ++ ExampleListResponse.results p2)%list
         = map (ExampleResponse.from_model isoformat)
               (objects.ordered (rows w)).
Proof.
  intros iso first second w Hlen H1 H2.
  eexists. eexists.
  rewrite (list_page iso first w 1 H1) by (lia || (apply near_offset; lia)).
  rewrite (list_page iso second w 2 H2) by (lia || (apply near_offset; lia)).
  split; [reflexivity|]. split; [reflexivity|].
  cbn [ExampleListResponse.results ExampleListResponse.next
       ExampleListResponse.previous ExampleListResponse.count].
  rewrite Hlen.
  change (Z.to_nat ((1 - 1) * 20)) with 0%nat.
  change (Z.to_nat ((2 - 1) * 20)) with 20%nat.
  rewrite skipn_0.
  assert (Hord : List.length (objects.ordered (rows w)) = 25%nat)
    by (rewrite length_ordered; exact Hlen).
  repeat split.
  - rewrite length_map, length_firstn, Hord. reflexivity.
  - discriminate.
  - rewrite length_map, length_firstn, length_skipn, Hord. reflexivity.
  - discriminate.
  - rewrite (firstn_all2 (n := 20) (skipn 20 (objects.ordered (rows w))))
      by (rewrite length_skipn, Hord; simpl; lia).
    rewrite <- map_app, firstn_skipn. reflexivity.
Qed.

Lemma list_of_25_rows_witness :
  let w := Sample.world 25 100 in
  exists p1 p2,
    ExampleViewSet.list_ Sample.isoformat
        (Sample.request "page=1" [("page", "1")] JNull) w
      = (Return (Response.mk (Page p1) status.HTTP_200_OK), w)
    /\ ExampleViewSet.list_ Sample.isoformat
        (Sample.request "page=2" [("page", "2")] JNull) w
      = (Return (Response.mk (Page p2) status.HTTP_200_OK), w)
    /\ List.length (ExampleListResponse.results p1) = 20%nat
    /\ List.length (ExampleListResponse.results p2) = 5%nat.
Proof.
  destruct (list_of_25_rows Sample.isoformat
              (Sample.request "page=1" [("page", "1")] JNull)
              (Sample.request "page=2" [("page", "2")] JNull)
              (Sample.world 25 100))
    as [p1 [p2 [R1 [R2 [L1 [_ [_ [_ [L2 _]]]]]]]]].
  - reflexivity.
  - reflexivity.
  - reflexivity.
  - exists p1, p2. repeat split; assumption.
Defined.

(** C5. On the request [GET /examples/?page=2] with 45 stored rows, the links
    List builds are the request URI, query string included, followed by a
    second [?page=N]: they are not the URIs whose query string is the single
    parameter [page=3] (for [next]) or [page=1] (for [previous]). *)
Theorem list_links_repeat_query :
  let request := Sample.request "page=2" [("page", "2")] JNull in
  let w := Sample.world 45 100 in
  exists body,
    ExampleViewSet.list_ Sample.isoformat request w
      = (Return (Response.mk (Page body) status.HTTP_200_OK), w)
    /\ ExampleListResponse.next body
       = Some "http://testserver/examples/?page=2?page=3"
    /\ ExampleListResponse.previous body
       = Some "http://testserver/examples/?page=2?page=1"
    /\ ExampleListResponse.next body
       <> Some "http://testserver/examples/?page=3"
    /\ ExampleListResponse.previous body
       <> Some "http://testserver/examples/?page=1".
Proof.
  intros request w. eexists.
  unfold request, w.
  rewrite (list_page Sample.isoformat _ _ 2)
    by (reflexivity || lia || (apply near_offset; lia)).
  split; [reflexivity|].
  cbn [ExampleListResponse.next ExampleListResponse.previous].
  repeat split; try reflexivity; vm_compute; discriminate.
Qed.

(** ** Update *)

(** A stored row and an accepted payload: Update answers 200 with the row as
    saved, which is the loaded row with the given fields assigned and
    [updated_at] set to the clock reading taken by the save. *)
Lemma update_saves isoformat request pk w r kwargs v :
  objects.get pk w = (Return r, w) ->
  Request.data request = JObj kwargs ->
  ExampleUpdateRequest.init kwargs = inr v ->
  let a := ExampleViewSet.assign r v in
  let r' := ExampleModel.mk (ExampleModel.id a) (ExampleModel.name a)
              (ExampleModel.description a) (ExampleModel.is_active a)
              (ExampleModel.created_at a) (clock w (ticks w)) in
  exists w',
    ExampleViewSet.update isoformat request pk w
      = (Return (Response.mk (Item (ExampleResponse.from_model isoformat r'))
                   status.HTTP_200_OK), w')
    /\ objects.get pk w' = (Return r', w').
Proof.
  intros Hget Hdata Hinit a r'.
  destruct (get_found _ _ _ Hget) as [Hkey Hfind].
  eexists. split.
  - unfold ExampleViewSet.update. unfold bind at 1.
    rewrite (get_or_404_found _ _ _ Hget).
    unfold bind at 1. rewrite Hdata. cbn [unpack ret]. rewrite Hinit.
    unfold objects.save, bind, timezone_now, ret. reflexivity.
  - unfold objects.get. cbn [rows]. rewrite Hkey.
    rewrite (find_overwritten (ExampleModel.id r) (rows w) r);
      [reflexivity | exact Hfind | reflexivity].
Qed.

(** The record is saved at the very instant of its last save: the update
    goes through and [updated_at] has not grown. *)
Lemma update_same_instant :
  let w := Sample.world 1 1 in
  let request := Sample.request "" [] (JObj [("name", JStr "renamed")]) in
  exists r r' response w',
    objects.get "1" w = (Return r, w)
    /\ ExampleViewSet.update Sample.isoformat request "1" w
       = (Return response, w')
    /\ Response.status_code response = 200
    /\ objects.get "1" w' = (Return r', w')
    /\ ExampleModel.name r' = "renamed"
    /\ ~ (ExampleModel.updated_at r < ExampleModel.updated_at r').
Proof.
  do 4 eexists.
  split; [reflexivity|]. split; [reflexivity|]. split; [reflexivity|].
  split; [reflexivity|]. split; [reflexivity|].
  vm_compute. discriminate.
Qed.

Lemma update_init_name_only kwargs s :
  lookup "name" kwargs = Some (JStr s) ->
  (1 <= String.length s <= 255)%nat ->
  lookup "description" kwargs = None ->
  lookup "is_active" kwargs = None ->
  ExampleUpdateRequest.init kwargs
    = inr (ExampleUpdateRequest.mk (Some s) None None).
Proof.
  intros Hn Hlen Hd Ha.
  unfold ExampleUpdateRequest.init, Field.optional.
  rewrite Hn, Hd, Ha.
  assert (E : Field.str_1_255 "name" (JStr s) = inr s)
    by now apply str_1_255_inr.
  rewrite E. reflexivity.
Qed.

(** C7, as the code has it. For every stored record, an Update whose payload gives only
    [name], a text of 1 to 255 characters, answers 200 and leaves the record
    with the given [name], with [description], [is_active], [id] and
    [created_at] as they were, and with [updated_at] set to the clock reading
    taken by the save; [updated_at] grows strictly whenever that reading is
    later than the stored [updated_at]. *)
Theorem update_name_only :
  forall isoformat request pk w r kwargs s,
    objects.get pk w = (Return r, w) ->
    Request.data request = JObj kwargs ->
    lookup "name" kwargs = Some (JStr s) ->
    (1 <= String.length s <= 255)%nat ->
    lookup "description" kwargs = None ->
    lookup "is_active" kwargs = None ->
    exists r' w',
      ExampleViewSet.update isoformat request pk w
        = (Return (Response.mk (Item (ExampleResponse.from_model isoformat r'))
                     status.HTTP_200_OK), w')
      /\ objects.get pk w' = (Return r', w')
      /\ ExampleModel.name r' = s
      /\ ExampleModel.description r' = ExampleModel.description r
      /\ ExampleModel.is_active r' = ExampleModel.is_active r
      /\ ExampleModel.id r' = ExampleModel.id r
      /\ ExampleModel.created_at r' = ExampleModel.created_at r
      /\ ExampleModel.updated_at r' = clock w (ticks w)
      /\ (ExampleModel.updated_at r < clock w (ticks w) ->
          ExampleModel.updated_at r < ExampleModel.updated_at r').
Proof.
  intros iso request pk w r kwargs s Hget Hdata Hn Hlen Hd Ha.
  pose proof (update_init_name_only kwargs s Hn Hlen Hd Ha) as Hinit.
  destruct (update_saves iso request pk w r kwargs _ Hget Hdata Hinit)
    as [w' [Hrun Hget']].
  eexists. exists w'. split; [exact Hrun|]. split; [exact Hget'|].
  simpl. repeat split. auto.
Qed.

(** The request of [test_partial_update_example], saved at instant 100. *)
Lemma update_name_only_witness :
  let w := Sample.world 2 100 in
  let request :=
    Sample.request "" [] (JObj [("name", JStr "Partially Updated")]) in
  exists r' w',
    ExampleViewSet.update Sample.isoformat request "1" w
      = (Return (Response.mk
                   (Item (ExampleResponse.from_model Sample.isoformat r'))
                   status.HTTP_200_OK), w')
    /\ ExampleModel.name r' = "Partially Updated"
    /\ ExampleModel.description r' = "sample"
    /\ ExampleModel.updated_at (Sample.row 1) < ExampleModel.updated_at r'.
Proof.
  destruct (update_name_only Sample.isoformat
              (Sample.request "" [] (JObj [("name", JStr "Partially Updated")]))
              "1" (Sample.world 2 100) (Sample.row 1)
              [("name", JStr "Partially Updated")] "Partially Updated")
    as [r' [w' [Hrun [_ [Hn [Hd [_ [_ [_ [_ Hlt]]]]]]]]]].
  - reflexivity.
  - reflexivity.
  - reflexivity.
  - simpl. lia.
  - reflexivity.
  - reflexivity.
  - exists r', w'. split; [exact Hrun|]. split; [exact Hn|].
    split; [exact Hd|]. apply Hlt. vm_compute. reflexivity.
Defined.

(** ** Null fields in Update *)




(** Update reads nothing of the request but the payload, and of the payload
    nothing but what the Update schema makes of it. *)
Lemma update_reads_payload isoformat request pk w kwargs :
  Request.data request = JObj kwargs ->
  ExampleViewSet.update isoformat request pk w =
  match ExampleViewSet.get_or_404 pk w with
  | (Return instance, w') =>
      match ExampleUpdateRequest.init kwargs with
      | inl errors =>
          (Return (Response.mk (Errors errors) status.HTTP_400_BAD_REQUEST), w')
      | inr validated_data =>
          (saved <- objects.save (ExampleViewSet.assign instance validated_data) ;;
           ret (Response.mk
                  (Item (ExampleResponse.from_model isoformat saved))
                  status.HTTP_200_OK)) w'
      end
  | (Raise e, w') => (Raise e, w')
  end.
Proof.
  intros Hdata. unfold ExampleViewSet.update. unfold bind at 1.
  destruct (ExampleViewSet.get_or_404 pk w) as [[instance|e] w'];
    [|reflexivity].
  unfold bind at 1. rewrite Hdata. cbn [unpack ret].
  destruct (ExampleUpdateRequest.init kwargs); reflexivity.
Qed.



(** A payload that passes the Create schema, read off the characterisation:
    a [name] that begins and ends with a blank. *)
Lemma create_accepts_iff_witness :
  create_accepts [("name", JStr " padded ")].
Proof.
  apply (create_accepts_iff [("name", JStr " padded ")]).
  split; [|split].
  - exists " padded ". split; [reflexivity | simpl; lia].
  - intros v H. discriminate H.
  - intros v H. discriminate H.
Defined.

(** ** Retrieve, and the views that only read *)

Lemma get_stored pk k w :
  Text.int_of_str pk = Some k ->
  stored k w = true ->
  exists r, objects.get pk w = (Return r, w)
            /\ In r (rows w) /\ ExampleModel.id r = k.
Proof.
  unfold stored, objects.get. intros Hk H. rewrite Hk.
  destruct (find (fun r => ExampleModel.id r =? k) (rows w)) as [r|] eqn:E.
  - exists r. apply find_some in E. destruct E as [Hin Hid].
    repeat split; [exact Hin | now apply Z.eqb_eq].
  - apply existsb_exists in H. destruct H as [x [Hin Hx]].
    pose proof (find_none _ _ E x Hin) as Hnone. simpl in Hnone. congruence.
Qed.

(** The lookup either finds a stored row under the key the segment reads
    as, or ends with an exception; it never writes. *)
Lemma get_or_404_cases pk w :
  (exists r, objects.get pk w = (Return r, w)
             /\ In r (rows w)
             /\ Text.int_of_str pk = Some (ExampleModel.id r))
  \/ (exists e, ExampleViewSet.get_or_404 pk w = (Raise e, w)).
Proof.
  destruct (Text.int_of_str pk) as [k|] eqn:Hk.
  - destruct (stored k w) eqn:Hs.
    + destruct (get_stored pk k w Hk Hs) as [r [Hget [Hin Hid]]].
      left. exists r. subst k. auto.
    + right. eexists. apply (get_or_404_missing pk k w Hk Hs).
  - right. eexists. apply (get_or_404_unreadable pk w Hk).
Qed.

Lemma retrieve_found isoformat request pk w r :
  objects.get pk w = (Return r, w) ->
  ExampleViewSet.retrieve isoformat request pk w
  = (Return (Response.mk (Item (ExampleResponse.from_model isoformat r))
               status.HTTP_200_OK), w).
Proof.
  intros H. unfold ExampleViewSet.retrieve, bind.
  rewrite (get_or_404_found _ _ _ H). reflexivity.
Qed.

(** X1. Retrieve on a key that reads as the key of a stored row answers 200
    with the item of a stored row that has this key: the item's [id] is the
    key, and its [name], [description], [is_active] and timestamps are that
    row's. *)
Theorem retrieve_stored :
  forall isoformat request pk k w,
    Text.int_of_str pk = Some k ->
    stored k w = true ->
    exists r item,
      In r (rows w)
      /\ ExampleModel.id r = k
      /\ ExampleViewSet.retrieve isoformat request pk w
         = (Return (Response.mk (Item item) status.HTTP_200_OK), w)
      /\ item = ExampleResponse.from_model isoformat r
      /\ ExampleResponse.id item = k
      /\ ExampleResponse.name item = ExampleModel.name r
      /\ ExampleResponse.description item = ExampleModel.description r
      /\ ExampleResponse.is_active item = ExampleModel.is_active r
      /\ ExampleResponse.created_at item
         = isoformat (ExampleModel.created_at r)
      /\ ExampleResponse.updated_at item
         = isoformat (ExampleModel.updated_at r).
Proof.
  intros iso request pk k w Hk H.
  destruct (get_stored pk k w Hk H) as [r [Hget [Hin Hid]]].
  exists r. eexists. split; [exact Hin|]. split; [exact Hid|].
  split; [apply (retrieve_found iso request pk w r Hget)|].
  split; [reflexivity|].
  simpl. rewrite or_empty_id. repeat split. exact Hid.
Qed.

(** The request of [test_retrieve_example]. *)
Lemma retrieve_stored_witness :
  exists item,
    ExampleViewSet.retrieve Sample.isoformat (Sample.request "" [] JNull) "1"
        (Sample.world 2 100)
      = (Return (Response.mk (Item item) status.HTTP_200_OK),
         Sample.world 2 100)
    /\ item = ExampleResponse.from_model Sample.isoformat (Sample.row 1).
Proof.
  destruct (retrieve_stored Sample.isoformat (Sample.request "" [] JNull) "1"
              1 (Sample.world 2 100))
    as [r [item [Hin [Hid [Hrun [Hitem _]]]]]].
  - reflexivity.
  - reflexivity.
  - exists item. split; [exact Hrun|]. rewrite Hitem.
    destruct Hin as [<- | [<- | []]]; [reflexivity | discriminate Hid].
Defined.

(** X2. Retrieve on a key that reads as an integer under which nothing is
    stored raises [Http404], answered with status 404; a key [int()] cannot
    read raises [ValueError] instead, answered with a server error. *)
Theorem retrieve_missing_is_404 :
  forall isoformat request pk w,
    (forall k, Text.int_of_str pk = Some k -> stored k w = false) ->
    (Text.int_of_str pk <> None ->
     ExampleViewSet.retrieve isoformat request pk w
       = (Raise (Http404 "Example item not found"), w)
     /\ http_status (fst (ExampleViewSet.retrieve isoformat request pk w))
        = status.HTTP_404_NOT_FOUND)
    /\ (Text.int_of_str pk = None ->
        ExampleViewSet.retrieve isoformat request pk w
          = (Raise (ValueError "Field 'id' expected a number"), w)
        /\ http_status (fst (ExampleViewSet.retrieve isoformat request pk w))
           = status.HTTP_500_INTERNAL_SERVER_ERROR).
Proof.
  intros iso request pk w H. split.
  - intros Hread.
    destruct (Text.int_of_str pk) as [k|] eqn:Hk; [|congruence].
    assert (E : ExampleViewSet.retrieve iso request pk w
                = (Raise (Http404 "Example item not found"), w)).
    { unfold ExampleViewSet.retrieve, bind.
      now rewrite (get_or_404_missing pk k w Hk (H k eq_refl)). }
    rewrite E. split; reflexivity.
  - intros Hk.
    assert (E : ExampleViewSet.retrieve iso request pk w
                = (Raise (ValueError "Field 'id' expected a number"), w)).
    { unfold ExampleViewSet.retrieve, bind.
      now rewrite (get_or_404_unreadable pk w Hk). }
    rewrite E. split; reflexivity.
Qed.

(** The request of [test_retrieve_nonexistent_example]. *)
Lemma retrieve_missing_is_404_witness :
  http_status
    (fst (ExampleViewSet.retrieve Sample.isoformat
            (Sample.request "" [] JNull) "999" (Sample.world 2 100)))
  = 404.
Proof.
  apply (retrieve_missing_is_404 Sample.isoformat (Sample.request "" [] JNull)
           "999" (Sample.world 2 100)).
  - intros k Hk. vm_compute in Hk. inversion Hk. reflexivity.
  - vm_compute. discriminate.
Defined.

Lemma get_or_404_reads pk w : snd (ExampleViewSet.get_or_404 pk w) = w.
Proof.
  unfold ExampleViewSet.get_or_404, try_except, objects.get.
  destruct (Text.int_of_str pk); [|reflexivity].
  destruct (find _ (rows w)); reflexivity.
Qed.

(** X3. List and Retrieve only read: whatever the request and whatever the
    outcome, response or exception, the rows, the key counter and the clock
    are left as they were. *)
Theorem reads_leave_the_world :
  forall isoformat request pk w,
    snd (ExampleViewSet.list_ isoformat request w) = w
    /\ snd (ExampleViewSet.retrieve isoformat request pk w) = w.
Proof.
  intros iso request pk w. split.
  - destruct (requested_page request) as [page|] eqn:E.
    + destruct (Z_lt_le_dec page 1) as [Hlt|Hge].
      * destruct (list_bad_page iso request w) as [m Hm].
        { intros p Hp. congruence. }
        rewrite Hm. reflexivity.
      * destruct (Z_le_gt_dec ((page - 1) * 20) objects.max_offset)
          as [Hnear|Hfar].
        -- rewrite (list_page iso request w page E Hge Hnear). reflexivity.
        -- rewrite (list_far_page iso request w page E); [reflexivity | lia].
    + destruct (list_bad_page iso request w) as [m Hm].
      { intros p Hp. congruence. }
      rewrite Hm. reflexivity.
  - unfold ExampleViewSet.retrieve, bind.
    pose proof (get_or_404_reads pk w) as H.
    destruct (ExampleViewSet.get_or_404 pk w) as [[r|e] w']; simpl in *;
      exact H.
Qed.

(** ** Destroy *)

Lemma destroy_found request pk w r :
  objects.get pk w = (Return r, w) ->
  ExampleViewSet.destroy request pk w
  = (Return (Response.mk Empty status.HTTP_204_NO_CONTENT),
     mkWorld (filter (fun x => negb (ExampleModel.id x =? ExampleModel.id r))
                (rows w))
             (next_pk w) (clock w) (ticks w)).
Proof.
  intros H.
  unfold ExampleViewSet.destroy. unfold bind at 1.
  rewrite (get_or_404_found _ _ _ H).
  unfold bind, objects.delete, ret. reflexivity.
Qed.

Lemma stored_after_filter pk l :
  existsb (fun r => ExampleModel.id r =? pk)
    (filter (fun x => negb (ExampleModel.id x =? pk)) l) = false.
Proof.
  induction l as [|x l IH]; simpl; [reflexivity|].
  destruct (ExampleModel.id x =? pk) eqn:E; simpl; [exact IH|].
  rewrite E. exact IH.
Qed.

(** X4. Destroy on a stored key answers 204 with an empty body; afterwards
    the key is not stored, every row under another key is still there, no row
    has appeared, and key counter and clock are untouched. *)
Theorem destroy_stored :
  forall request pk k w,
    Text.int_of_str pk = Some k ->
    stored k w = true ->
    exists w',
      ExampleViewSet.destroy request pk w
        = (Return (Response.mk Empty status.HTTP_204_NO_CONTENT), w')
      /\ stored k w' = false
      /\ (forall x, ExampleModel.id x <> k ->
                    (In x (rows w') <-> In x (rows w)))
      /\ (forall x, In x (rows w') -> In x (rows w))
      /\ next_pk w' = next_pk w
      /\ ticks w' = ticks w.
Proof.
  intros request pk k w Hk H.
  destruct (get_stored pk k w Hk H) as [r [Hget [_ Hid]]].
  eexists. split; [apply (destroy_found request pk w r Hget)|].
  rewrite Hid.
  cbn [rows next_pk ticks]. unfold stored. cbn [rows].
  split; [apply stored_after_filter|].
  split; [|split; [|split; reflexivity]].
  - intros x Hx. rewrite filter_In. split; [tauto|].
    intros Hin. split; [exact Hin|].
    apply negb_true_iff. now apply Z.eqb_neq.
  - intros x Hin. apply filter_In in Hin. tauto.
Qed.

(** The request of [test_delete_example]. *)
Lemma destroy_stored_witness :
  exists w',
    ExampleViewSet.destroy (Sample.request "" [] JNull) "1"
        (Sample.world 2 100)
      = (Return (Response.mk Empty status.HTTP_204_NO_CONTENT), w')
    /\ stored 1 w' = false.
Proof.
  destruct (destroy_stored (Sample.request "" [] JNull) "1" 1
              (Sample.world 2 100))
    as [w' [Hrun [Hgone _]]].
  - reflexivity.
  - reflexivity.
  - exists w'. split; [exact Hrun | exact Hgone].
Defined.

Lemma filter_other_keys pk (l : list ExampleModel.t) :
  existsb (Z.eqb pk) (map ExampleModel.id l) = false ->
  filter (fun x => negb (ExampleModel.id x =? pk)) l = l.
Proof.
  induction l as [|x l IH]; simpl; [reflexivity|].
  intros H. apply orb_false_iff in H. destruct H as [Hx Hl].
  rewrite Z.eqb_sym, Hx. simpl. now rewrite IH.
Qed.

Lemma distinct_filter_length pk (l : list ExampleModel.t) :
  distinct (map ExampleModel.id l) = true ->
  existsb (fun r => ExampleModel.id r =? pk) l = true ->
  S (List.length (filter (fun x => negb (ExampleModel.id x =? pk)) l))
  = List.length l.
Proof.
  induction l as [|x l IH]; simpl; [discriminate|].
  intros Hd Hex. apply andb_true_iff in Hd. destruct Hd as [Hx Hd].
  apply negb_true_iff in Hx.
  destruct (ExampleModel.id x =? pk) eqn:E; simpl.
  - apply Z.eqb_eq in E. rewrite E in Hx.
    rewrite (filter_other_keys pk l Hx). reflexivity.
  - simpl in Hex. rewrite (IH Hd Hex). reflexivity.
Qed.

(** X5. With unique keys, Destroy on a stored key takes exactly one row out
    of the table. *)
Theorem destroy_takes_one_row :
  forall request pk k w,
    well_keyed w = true ->
    Text.int_of_str pk = Some k ->
    stored k w = true ->
    (List.length (rows (snd (ExampleViewSet.destroy request pk w))) + 1
     = List.length (rows w))%nat.
Proof.
  intros request pk k w Hwk Hk H.
  destruct (get_stored pk k w Hk H) as [r [Hget [_ Hid]]].
  rewrite (destroy_found request pk w r Hget). rewrite Hid. cbn [snd rows].
  apply andb_true_iff in Hwk. destruct Hwk as [Hd _].
  pose proof (distinct_filter_length k (rows w) Hd H). lia.
Qed.

(** Two rows, one deleted: one is left, as [test_delete_example] counts. *)
Lemma destroy_takes_one_row_witness :
  List.length
    (rows (snd (ExampleViewSet.destroy (Sample.request "" [] JNull) "1"
                  (Sample.world 2 100))))
  = 1%nat.
Proof.
  pose proof (destroy_takes_one_row (Sample.request "" [] JNull) "1" 1
                (Sample.world 2 100) eq_refl eq_refl eq_refl) as H.
  change (List.length (rows (Sample.world 2 100))) with 2%nat in H.
  lia.
Defined.

(** X6. Once a key has been destroyed, Retrieve, Update and a second Destroy
    on it all raise [Http404]: deleting twice is not a silent success. *)
Theorem destroyed_key_is_gone :
  forall isoformat request pk k w again,
    Text.int_of_str pk = Some k ->
    stored k w = true ->
    let w' := snd (ExampleViewSet.destroy request pk w) in
    ExampleViewSet.retrieve isoformat again pk w'
      = (Raise (Http404 "Example item not found"), w')
    /\ ExampleViewSet.update isoformat again pk w'
      = (Raise (Http404 "Example item not found"), w')
    /\ ExampleViewSet.destroy again pk w'
      = (Raise (Http404 "Example item not found"), w').
Proof.
  intros iso request pk k w again Hk H w'.
  assert (Hgone : stored k w' = false).
  { unfold w'. destruct (get_stored pk k w Hk H) as [r [Hget [_ Hid]]].
    rewrite (destroy_found request pk w r Hget). rewrite Hid. cbn [snd].
    unfold stored. cbn [rows]. apply stored_after_filter. }
  pose proof (get_or_404_missing pk k w' Hk Hgone) as E.
  repeat split.
  - unfold ExampleViewSet.retrieve, bind. now rewrite E.
  - unfold ExampleViewSet.update, bind. now rewrite E.
  - unfold ExampleViewSet.destroy, bind. now rewrite E.
Qed.

Lemma destroyed_key_is_gone_witness :
  let w' := snd (ExampleViewSet.destroy (Sample.request "" [] JNull) "1"
                   (Sample.world 2 100)) in
  ExampleViewSet.destroy (Sample.request "" [] JNull) "1" w'
  = (Raise (Http404 "Example item not found"), w').
Proof.
  apply (destroyed_key_is_gone Sample.isoformat (Sample.request "" [] JNull)
           "1" 1 (Sample.world 2 100) (Sample.request "" [] JNull)).
  - reflexivity.
  - reflexivity.
Defined.

(** ** Create *)

Lemma create_accepted isoformat request kwargs v w :
  Request.data request = JObj kwargs ->
  ExampleCreateRequest.init kwargs = inr v ->
  let r := ExampleModel.mk (next_pk w)
             (ExampleCreateRequest.name v)
             (opt_or_empty (ExampleCreateRequest.description v))
             (ExampleCreateRequest.is_active v)
             (clock w (ticks w)) (clock w (S (ticks w))) in
  ExampleViewSet.create isoformat request w
  = (Return (Response.mk (Item (ExampleResponse.from_model isoformat r))
               status.HTTP_201_CREATED),
     mkWorld (rows w ++ [r])%list (next_pk w + 1) (clock w) (S (S (ticks w)))).
Proof.
  intros Hdata Hinit r.
  unfold ExampleViewSet.create, bind. rewrite Hdata. cbn [unpack ret].
  rewrite Hinit. unfold objects.create, bind, timezone_now, ret.
  reflexivity.
Qed.

Lemma create_rejected isoformat request kwargs errors w :
  Request.data request = JObj kwargs ->
  ExampleCreateRequest.init kwargs = inl errors ->
  ExampleViewSet.create isoformat request w
  = (Return (Response.mk (Errors errors) status.HTTP_400_BAD_REQUEST), w).
Proof.
  intros Hdata Hinit.
  unfold ExampleViewSet.create, bind. rewrite Hdata. cbn [unpack ret].
  rewrite Hinit. reflexivity.
Qed.

Lemma unpack_not_mapping data w :
  (forall kwargs, data <> JObj kwargs) ->
  unpack data w = (Raise (TypeError "argument after ** must be a mapping"), w).
Proof.
  intros H. destruct data; try reflexivity.
  exfalso. now apply (H o).
Qed.

(** X7. Create with an accepted payload answers 201 and appends exactly one
    row: its key is the key counter's value, which then moves on by one; its
    [created_at] and [updated_at] are the next two clock readings; the rows
    stored before keep their place. *)
Theorem create_appends_one_row :
  forall isoformat request kwargs w,
    Request.data request = JObj kwargs ->
    create_accepts kwargs ->
    exists r item w',
      ExampleViewSet.create isoformat request w
        = (Return (Response.mk (Item item) status.HTTP_201_CREATED), w')
      /\ rows w' = (rows w ++ [r])%list
      /\ ExampleModel.id r = next_pk w
      /\ ExampleResponse.id item = next_pk w
      /\ next_pk w' = next_pk w + 1
      /\ ExampleModel.created_at r = clock w (ticks w)
      /\ ExampleModel.updated_at r = clock w (S (ticks w))
      /\ List.length (rows w') = S (List.length (rows w)).
Proof.
  intros iso request kwargs w Hdata [v Hinit].
  do 3 eexists.
  split; [apply (create_accepted iso request kwargs v w Hdata Hinit)|].
  cbn [rows next_pk]. repeat split.
  rewrite length_app. simpl. lia.
Qed.

(** The payload of [test_create_example] on two stored rows: three are
    stored afterwards. *)
Lemma create_appends_one_row_witness :
  exists item w',
    ExampleViewSet.create Sample.isoformat
        (Sample.request "" []
           (JObj [("name", JStr "New Test Example");
                  ("description", JStr "A newly created test example");
                  ("is_active", JBool true)]))
        (Sample.world 2 100)
      = (Return (Response.mk (Item item) status.HTTP_201_CREATED), w')
    /\ ExampleResponse.id item = 3
    /\ List.length (rows w') = 3%nat.
Proof.
  destruct (create_appends_one_row Sample.isoformat
              (Sample.request "" []
                 (JObj [("name", JStr "New Test Example");
                        ("description", JStr "A newly created test example");
                        ("is_active", JBool true)]))
              [("name", JStr "New Test Example");
               ("description", JStr "A newly created test example");
               ("is_active", JBool true)]
              (Sample.world 2 100))
    as [r [item [w' [Hrun [_ [_ [Hid [_ [_ [_ Hlen]]]]]]]]]].
  - reflexivity.
  - eexists. reflexivity.
  - exists item, w'. split; [exact Hrun|]. split; [exact Hid | exact Hlen].
Defined.

Lemma fresh_key_not_stored w :
  well_keyed w = true -> stored (next_pk w) w = false.
Proof.
  unfold well_keyed, stored, keys. intros H.
  apply andb_true_iff in H. destruct H as [_ H].
  induction (rows w) as [|x l IH]; simpl in *; [reflexivity|].
  apply andb_true_iff in H. destruct H as [Hx Hl].
  apply Z.ltb_lt in Hx.
  replace (ExampleModel.id x =? next_pk w) with false
    by (symmetry; apply Z.eqb_neq; lia).
  simpl. now apply IH.
Qed.

Lemma find_appended pk (l : list ExampleModel.t) r :
  existsb (fun x => ExampleModel.id x =? pk) l = false ->
  ExampleModel.id r = pk ->
  find (fun x => ExampleModel.id x =? pk) (l ++ [r]) = Some r.
Proof.
  intros Hl Hr. induction l as [|x l IH]; simpl in *.
  - rewrite Hr, Z.eqb_refl. reflexivity.
  - apply orb_false_iff in Hl. destruct Hl as [Hx Hl].
    rewrite Hx. now apply IH.
Qed.

(** X8. With keys below the counter, what Create has just answered is what
    Retrieve answers on every key that reads as the new [id]: the same item,
    with status 200. *)
Theorem create_then_retrieve :
  forall isoformat request kwargs w again,
    well_keyed w = true ->
    Request.data request = JObj kwargs ->
    create_accepts kwargs ->
    exists item w',
      ExampleViewSet.create isoformat request w
        = (Return (Response.mk (Item item) status.HTTP_201_CREATED), w')
      /\ ExampleResponse.id item = next_pk w
      /\ forall pk,
           Text.int_of_str pk = Some (ExampleResponse.id item) ->
           ExampleViewSet.retrieve isoformat again pk w'
           = (Return (Response.mk (Item item) status.HTTP_200_OK), w').
Proof.
  intros iso request kwargs w again Hwk Hdata [v Hinit].
  do 2 eexists.
  split; [apply (create_accepted iso request kwargs v w Hdata Hinit)|].
  split; [reflexivity|].
  intros pk Hpk.
  apply retrieve_found. unfold objects.get. rewrite Hpk.
  cbn [rows ExampleResponse.id ExampleResponse.from_model ExampleModel.id].
  rewrite find_appended with (r := ExampleModel.mk (next_pk w)
             (ExampleCreateRequest.name v)
             (opt_or_empty (ExampleCreateRequest.description v))
             (ExampleCreateRequest.is_active v)
             (clock w (ticks w)) (clock w (S (ticks w)))).
  - reflexivity.
  - apply (fresh_key_not_stored w Hwk).
  - reflexivity.
Qed.

Lemma create_then_retrieve_witness :
  exists item w',
    ExampleViewSet.create Sample.isoformat
        (Sample.request "" [] (JObj [("name", JStr "New Test Example")]))
        (Sample.world 2 100)
      = (Return (Response.mk (Item item) status.HTTP_201_CREATED), w')
    /\ ExampleViewSet.retrieve Sample.isoformat (Sample.request "" [] JNull)
         "3" w'
      = (Return (Response.mk (Item item) status.HTTP_200_OK), w').
Proof.
  destruct (create_then_retrieve Sample.isoformat
              (Sample.request "" [] (JObj [("name", JStr "New Test Example")]))
              [("name", JStr "New Test Example")]
              (Sample.world 2 100) (Sample.request "" [] JNull))
    as [item [w' [Hrun [Hid Hget]]]].
  - reflexivity.
  - reflexivity.
  - eexists. reflexivity.
  - exists item, w'. split; [exact Hrun|].
    apply Hget. rewrite Hid. reflexivity.
Defined.

Lemma create_errors_not_empty kwargs errors :
  ExampleCreateRequest.init kwargs = inl errors -> errors <> [].
Proof.
  unfold ExampleCreateRequest.init.
  destruct (Field.required _ _ _) as [e1|n];
    destruct (Field.optional _ _ _) as [e2|d];
    destruct (Field.defaulted _ _ _ _) as [e3|a];
    intros H; inversion H; discriminate.
Qed.

(** X9. On a payload that is an object, Create never raises: it answers 201
    when the Create schema accepts the payload, and otherwise 400 with a list
    of at least one error, leaving rows, key counter and clock as they
    were. *)
Theorem create_is_201_or_400 :
  forall isoformat request kwargs w,
    Request.data request = JObj kwargs ->
    (create_accepts kwargs /\
     exists item w',
       ExampleViewSet.create isoformat request w
       = (Return (Response.mk (Item item) status.HTTP_201_CREATED), w'))
    \/
    (~ create_accepts kwargs /\
     exists errors,
       errors <> [] /\
       ExampleViewSet.create isoformat request w
       = (Return (Response.mk (Errors errors) status.HTTP_400_BAD_REQUEST), w)).
Proof.
  intros iso request kwargs w Hdata.
  destruct (ExampleCreateRequest.init kwargs) as [errors|v] eqn:Hinit.
  - right. split.
    + intros [v Hv]. congruence.
    + exists errors. split; [now apply (create_errors_not_empty kwargs)|].
      now apply (create_rejected iso request kwargs).
  - left. split; [now exists v|].
    do 2 eexists. apply (create_accepted iso request kwargs v w Hdata Hinit).
Qed.

(** A payload without [name]: one error, nothing stored. *)
Lemma create_is_201_or_400_witness :
  exists errors,
    ExampleViewSet.create Sample.isoformat
        (Sample.request "" [] (JObj [("description", JStr "no name")]))
        (Sample.world 2 100)
    = (Return (Response.mk (Errors errors) status.HTTP_400_BAD_REQUEST),
       Sample.world 2 100).
Proof.
  destruct (create_is_201_or_400 Sample.isoformat
              (Sample.request "" [] (JObj [("description", JStr "no name")]))
              [("description", JStr "no name")] (Sample.world 2 100) eq_refl)
    as [[[v Hv] _] | [_ [errors [_ Hrun]]]].
  - discriminate Hv.
  - exists errors. exact Hrun.
Defined.

(** X10. A payload that is not an object (a JSON array, text, number or
    null) cannot be unpacked into the schema: Create raises [TypeError],
    which no handler of the view catches, so the client sees a server error;
    so does Update on a stored key.  Nothing is stored or changed. *)
Theorem payload_must_be_a_mapping :
  forall isoformat request pk k w,
    (forall kwargs, Request.data request <> JObj kwargs) ->
    ExampleViewSet.create isoformat request w
      = (Raise (TypeError "argument after ** must be a mapping"), w)
    /\ http_status (fst (ExampleViewSet.create isoformat request w))
       = status.HTTP_500_INTERNAL_SERVER_ERROR
    /\ (Text.int_of_str pk = Some k ->
        stored k w = true ->
        ExampleViewSet.update isoformat request pk w
        = (Raise (TypeError "argument after ** must be a mapping"), w)).
Proof.
  intros iso request pk k w H.
  assert (E : ExampleViewSet.create iso request w
              = (Raise (TypeError "argument after ** must be a mapping"), w)).
  { unfold ExampleViewSet.create, bind.
    now rewrite (unpack_not_mapping _ w H). }
  rewrite E. repeat split.
  intros Hk Hs. destruct (get_stored pk k w Hk Hs) as [r [Hget _]].
  unfold ExampleViewSet.update. unfold bind at 1.
  rewrite (get_or_404_found _ _ _ Hget).
  unfold bind. now rewrite (unpack_not_mapping _ w H).
Qed.

Lemma payload_must_be_a_mapping_witness :
  http_status
    (fst (ExampleViewSet.create Sample.isoformat
            (Sample.request "" [] (JList [JStr "New Test Example"]))
            (Sample.world 2 100)))
  = 500.
Proof.
  apply (payload_must_be_a_mapping Sample.isoformat
           (Sample.request "" [] (JList [JStr "New Test Example"])) "1" 1
           (Sample.world 2 100)).
  intros kwargs. simpl. discriminate.
Defined.

(** ** Where validation errors point *)

Lemma str_loc f v e : Field.str f v = inl e -> loc e = f.
Proof. destruct v; simpl; intros H; inversion H; reflexivity. Qed.

Lemma str_1_255_loc f v e : Field.str_1_255 f v = inl e -> loc e = f.
Proof.
  unfold Field.str_1_255.
  destruct (Field.str f v) as [e'|s] eqn:E.
  - intros H. inversion H. subst. now apply (str_loc f v).
  - destruct (String.length s <? 1)%nat; [intros H; now inversion H|].
    destruct (255 <? String.length s)%nat; intros H; now inversion H.
Qed.

Lemma bool_loc f v e : Field.bool f v = inl e -> loc e = f.
Proof.
  unfold Field.bool.
  destruct v as [ |b|n|q|s|l|o]; cbv beta iota zeta;
    try (intros H; now inversion H).
  - destruct (n =? 0); [discriminate|].
    destruct (n =? 1); [discriminate|].
    destruct ((- 2 ^ 63 <=? n) && (n <? 2 ^ 63)); intros H; now inversion H.
  - destruct (Qeq_bool q 0); [discriminate|].
    destruct (Qeq_bool q 1); [discriminate|].
    destruct ((Qnum q mod Z.pos (Qden q) =? 0)
              && (- 2 ^ 63 <? Qnum q / Z.pos (Qden q))
              && (Qnum q / Z.pos (Qden q) <? 2 ^ 63));
      intros H; now inversion H.
  - destruct (Text.mem (Text.lower s) Field.false_words); [discriminate|].
    destruct (Text.mem (Text.lower s) Field.true_words); [discriminate|].
    intros H. now inversion H.
Qed.

Lemma optional_loc {A} (validator : string -> json -> ErrorDetails + A) f
    kwargs e :
  (forall v e', validator f v = inl e' -> loc e' = f) ->
  Field.optional validator f kwargs = inl e -> loc e = f.
Proof.
  intros Hv. unfold Field.optional.
  destruct (lookup f kwargs) as [v|]; [|discriminate].
  destruct v; try discriminate;
    match goal with
    | |- context [validator f ?x] =>
        destruct (validator f x) as [e'|a] eqn:E; [|discriminate];
        intros H; inversion H; subst; now apply (Hv x)
    end.
Qed.

Lemma required_loc {A} (validator : string -> json -> ErrorDetails + A) f
    kwargs e :
  (forall v e', validator f v = inl e' -> loc e' = f) ->
  Field.required validator f kwargs = inl e -> loc e = f.
Proof.
  intros Hv. unfold Field.required.
  destruct (lookup f kwargs) as [v|].
  - apply Hv.
  - intros H. now inversion H.
Qed.

Lemma defaulted_loc {A} (validator : string -> json -> ErrorDetails + A)
    default f kwargs e :
  (forall v e', validator f v = inl e' -> loc e' = f) ->
  Field.defaulted validator default f kwargs = inl e -> loc e = f.
Proof.
  intros Hv. unfold Field.defaulted.
  destruct (lookup f kwargs) as [v|]; [apply Hv | discriminate].
Qed.

(** The errors of three fields, one at most per field, in field order. *)
Lemma three_fields_located {A B C}
    (n : ErrorDetails + A) (d : ErrorDetails + B) (a : ErrorDetails + C) :
  (forall e, n = inl e -> loc e = "name") ->
  (forall e, d = inl e -> loc e = "description") ->
  (forall e, a = inl e -> loc e = "is_active") ->
  let errors := (Field.errors n ++ Field.errors d ++ Field.errors a)%list in
  NoDup (map loc errors)
  /\ (forall e, In e errors ->
                In (loc e) ["name"; "description"; "is_active"])
  /\ (List.length errors <= 3)%nat.
Proof.
  intros Hn Hd Ha.
  destruct n as [e1|n]; [pose proof (Hn e1 eq_refl) as L1 | clear Hn];
    (destruct d as [e2|d]; [pose proof (Hd e2 eq_refl) as L2 | clear Hd]);
    (destruct a as [e3|a]; [pose proof (Ha e3 eq_refl) as L3 | clear Ha]);
    simpl; repeat split;
    try (repeat constructor; simpl;
         repeat match goal with H : loc _ = _ |- _ => rewrite H end;
         intuition discriminate);
    try lia;
    intros e Hin; simpl in Hin;
    repeat match goal with
      | H : _ \/ _ |- _ => destruct H
      | H : False |- _ => destruct H
      end; subst;
    repeat match goal with H : loc _ = _ |- _ => rewrite H end; simpl; tauto.
Qed.

(** X11. When the Create or the Update schema refuses a payload, the error
    list holds at most one error per field, each located at [name],
    [description] or [is_active]: between one and three errors. *)
Theorem errors_point_at_fields :
  forall kwargs errors,
    ExampleCreateRequest.init kwargs = inl errors
    \/ ExampleUpdateRequest.init kwargs = inl errors ->
    NoDup (map loc errors)
    /\ (forall e, In e errors ->
                  In (loc e) ["name"; "description"; "is_active"])
    /\ (1 <= List.length errors <= 3)%nat.
Proof.
  intros kwargs errors H.
  assert (Hloc : (NoDup (map loc errors)
                  /\ (forall e, In e errors ->
                                In (loc e) ["name"; "description"; "is_active"])
                  /\ (List.length errors <= 3)%nat)
                 /\ errors <> []).
  { destruct H as [H | H].
    - pose proof (three_fields_located
                    (Field.required Field.str_1_255 "name" kwargs)
                    (Field.optional Field.str "description" kwargs)
                    (Field.defaulted Field.bool true "is_active" kwargs)
                    (fun e => required_loc Field.str_1_255 "name" kwargs e
                                (str_1_255_loc "name"))
                    (fun e => optional_loc Field.str "description" kwargs e
                                (str_loc "description"))
                    (fun e => defaulted_loc Field.bool true "is_active" kwargs
                                e (bool_loc "is_active"))) as T.
      cbv zeta in T. unfold ExampleCreateRequest.init in H.
      destruct (Field.required _ _ _) as [e1|n];
        destruct (Field.optional _ _ _) as [e2|d];
        destruct (Field.defaulted _ _ _ _) as [e3|a];
        inversion H; subst errors; (split; [exact T | discriminate]).
    - pose proof (three_fields_located
                    (Field.optional Field.str_1_255 "name" kwargs)
                    (Field.optional Field.str "description" kwargs)
                    (Field.optional Field.bool "is_active" kwargs)
                    (fun e => optional_loc Field.str_1_255 "name" kwargs e
                                (str_1_255_loc "name"))
                    (fun e => optional_loc Field.str "description" kwargs e
                                (str_loc "description"))
                    (fun e => optional_loc Field.bool "is_active" kwargs e
                                (bool_loc "is_active"))) as T.
      cbv zeta in T. unfold ExampleUpdateRequest.init in H.
      destruct (Field.optional Field.str_1_255 _ _) as [e1|n];
        destruct (Field.optional Field.str _ _) as [e2|d];
        destruct (Field.optional Field.bool _ _) as [e3|a];
        inversion H; subst errors; (split; [exact T | discriminate]). }
  destruct Hloc as [[H1 [H2 H3]] H4].
  repeat split; try assumption.
  destruct errors; [congruence | simpl; lia].
Qed.

(** A payload wrong in all three fields. *)
Lemma errors_point_at_fields_witness :
  exists errors,
    ExampleCreateRequest.init
      [("description", JInt 3); ("is_active", JStr "maybe")] = inl errors
    /\ List.length errors = 3%nat
    /\ NoDup (map loc errors).
Proof.
  eexists. split; [reflexivity|]. split; [reflexivity|].
  apply (errors_point_at_fields
           [("description", JInt 3); ("is_active", JStr "maybe")]).
  left. reflexivity.
Defined.

(** ** Update, further *)

Lemma update_accepted isoformat request pk w r kwargs v :
  objects.get pk w = (Return r, w) ->
  Request.data request = JObj kwargs ->
  ExampleUpdateRequest.init kwargs = inr v ->
  let a := ExampleViewSet.assign r v in
  let r' := ExampleModel.mk (ExampleModel.id r) (ExampleModel.name a)
              (ExampleModel.description a) (ExampleModel.is_active a)
              (ExampleModel.created_at r) (clock w (ticks w)) in
  ExampleViewSet.update isoformat request pk w
  = (Return (Response.mk (Item (ExampleResponse.from_model isoformat r'))
               status.HTTP_200_OK),
     mkWorld (map (fun x => if ExampleModel.id x =? ExampleModel.id r
                            then r' else x) (rows w))
             (next_pk w) (clock w) (S (ticks w))).
Proof.
  intros Hget Hdata Hinit a r'.
  rewrite (update_reads_payload isoformat request pk w kwargs Hdata).
  rewrite (get_or_404_found _ _ _ Hget), Hinit.
  unfold objects.save, bind, timezone_now, ret. reflexivity.
Qed.

Lemma update_rejected isoformat request pk w r kwargs errors :
  objects.get pk w = (Return r, w) ->
  Request.data request = JObj kwargs ->
  ExampleUpdateRequest.init kwargs = inl errors ->
  ExampleViewSet.update isoformat request pk w
  = (Return (Response.mk (Errors errors) status.HTTP_400_BAD_REQUEST), w).
Proof.
  intros Hget Hdata Hinit.
  rewrite (update_reads_payload isoformat request pk w kwargs Hdata).
  rewrite (get_or_404_found _ _ _ Hget), Hinit. reflexivity.
Qed.

Lemma find_saved pk k (l : list ExampleModel.t) r r' :
  find (fun x => ExampleModel.id x =? pk) l = Some r ->
  k = pk ->
  ExampleModel.id r' = pk ->
  find (fun x => ExampleModel.id x =? pk)
       (map (fun x => if ExampleModel.id x =? k then r' else x) l) = Some r'.
Proof.
  intros Hfind -> Hid.
  induction l as [|x l IH]; simpl in *; [discriminate|].
  destruct (ExampleModel.id x =? pk) eqn:E.
  - rewrite Hid, Z.eqb_refl. reflexivity.
  - rewrite E. auto.
Qed.

(** The lookup after a save returns the saved row. *)
Lemma get_after_save pk w r r' n c t :
  objects.get pk w = (Return r, w) ->
  ExampleModel.id r' = ExampleModel.id r ->
  let w' := mkWorld (map (fun x => if ExampleModel.id x =? ExampleModel.id r
                                   then r' else x) (rows w)) n c t in
  objects.get pk w' = (Return r', w').
Proof.
  intros Hget Hid w'.
  destruct (get_found _ _ _ Hget) as [Hkey Hfind].
  unfold objects.get, w'. cbn [rows]. rewrite Hkey.
  rewrite (find_saved (ExampleModel.id r) (ExampleModel.id r) (rows w) r);
    [reflexivity | exact Hfind | reflexivity | exact Hid].
Qed.

(** X12. Update on a stored key with a payload the Update schema refuses
    answers 400 with the errors and changes nothing: the row keeps its
    fields, [updated_at] included, and the clock is not read. *)
Theorem update_invalid_is_400 :
  forall isoformat request pk k w kwargs,
    Text.int_of_str pk = Some k ->
    stored k w = true ->
    Request.data request = JObj kwargs ->
    ~ update_accepts kwargs ->
    exists errors,
      ExampleUpdateRequest.init kwargs = inl errors
      /\ ExampleViewSet.update isoformat request pk w
         = (Return (Response.mk (Errors errors) status.HTTP_400_BAD_REQUEST),
            w).
Proof.
  intros iso request pk k w kwargs Hk Hs Hdata Hno.
  destruct (get_stored pk k w Hk Hs) as [r [Hget _]].
  destruct (ExampleUpdateRequest.init kwargs) as [errors|v] eqn:Hinit.
  - exists errors. split; [reflexivity|].
    now apply (update_rejected iso request pk w r kwargs).
  - exfalso. apply Hno. now exists v.
Qed.

(** An empty [name] on a stored row. *)
Lemma update_invalid_is_400_witness :
  exists errors,
    ExampleViewSet.update Sample.isoformat
        (Sample.request "" [] (JObj [("name", JStr "")])) "1"
        (Sample.world 2 100)
    = (Return (Response.mk (Errors errors) status.HTTP_400_BAD_REQUEST),
       Sample.world 2 100).
Proof.
  destruct (update_invalid_is_400 Sample.isoformat
              (Sample.request "" [] (JObj [("name", JStr "")])) "1" 1
              (Sample.world 2 100) [("name", JStr "")])
    as [errors [_ Hrun]].
  - reflexivity.
  - reflexivity.
  - reflexivity.
  - intros [v Hv]. discriminate Hv.
  - exists errors. exact Hrun.
Defined.

Lemma update_init_inr kwargs v :
  ExampleUpdateRequest.init kwargs = inr v ->
  Field.optional Field.str_1_255 "name" kwargs
    = inr (ExampleUpdateRequest.name v) /\
  Field.optional Field.str "description" kwargs
    = inr (ExampleUpdateRequest.description v) /\
  Field.optional Field.bool "is_active" kwargs
    = inr (ExampleUpdateRequest.is_active v).
Proof.
  unfold ExampleUpdateRequest.init.
  destruct (Field.optional Field.str_1_255 _ _) as [e1|n]; [discriminate|].
  destruct (Field.optional Field.str _ _) as [e2|d]; [discriminate|].
  destruct (Field.optional Field.bool _ _) as [e3|a]; [discriminate|].
  intros H. inversion H. simpl. repeat split.
Qed.

(** X13. Update with an accepted payload answers 200 and overwrites exactly
    the fields the payload gives: a field given as text (or, for
    [is_active], as a boolean) takes the given value; a field left out or
    null keeps the stored value; [id] and [created_at] never change;
    [updated_at] becomes the clock reading of the save. *)
Theorem update_overwrites_given_fields :
  forall isoformat request pk w r kwargs,
    objects.get pk w = (Return r, w) ->
    Request.data request = JObj kwargs ->
    update_accepts kwargs ->
    exists r' w',
      ExampleViewSet.update isoformat request pk w
        = (Return (Response.mk (Item (ExampleResponse.from_model isoformat r'))
                     status.HTTP_200_OK), w')
      /\ objects.get pk w' = (Return r', w')
      /\ ExampleModel.id r' = ExampleModel.id r
      /\ ExampleModel.created_at r' = ExampleModel.created_at r
      /\ ExampleModel.updated_at r' = clock w (ticks w)
      /\ (forall s, lookup "name" kwargs = Some (JStr s) ->
                    ExampleModel.name r' = s)
      /\ (lookup "name" kwargs = None \/ lookup "name" kwargs = Some JNull ->
          ExampleModel.name r' = ExampleModel.name r)
      /\ (forall s, lookup "description" kwargs = Some (JStr s) ->
                    ExampleModel.description r' = s)
      /\ (lookup "description" kwargs = None
          \/ lookup "description" kwargs = Some JNull ->
          ExampleModel.description r' = ExampleModel.description r)
      /\ (forall b, lookup "is_active" kwargs = Some (JBool b) ->
                    ExampleModel.is_active r' = b)
      /\ (lookup "is_active" kwargs = None
          \/ lookup "is_active" kwargs = Some JNull ->
          ExampleModel.is_active r' = ExampleModel.is_active r).
Proof.
  intros iso request pk w r kwargs Hget Hdata [v Hinit].
  destruct (update_init_inr kwargs v Hinit) as [Hn [Hd Ha]].
  do 2 eexists.
  split; [apply (update_accepted iso request pk w r kwargs v Hget Hdata Hinit)|].
  split; [apply (get_after_save pk w r _ _ _ _ Hget); reflexivity|].
  cbn [ExampleModel.id ExampleModel.created_at ExampleModel.updated_at
       ExampleModel.name ExampleModel.description ExampleModel.is_active
       ExampleViewSet.assign].
  unfold Field.optional in Hn, Hd, Ha.
  repeat split.
  - intros s Hl. rewrite Hl in Hn. simpl in Hn.
    destruct (Field.str_1_255 "name" (JStr s)) as [e|s'] eqn:E;
      [discriminate|].
    apply str_1_255_inr in E. destruct E as [E _]. inversion E. subst s'.
    inversion Hn. reflexivity.
  - intros [Hl | Hl]; rewrite Hl in Hn; inversion Hn; reflexivity.
  - intros s Hl. rewrite Hl in Hd. simpl in Hd. inversion Hd. reflexivity.
  - intros [Hl | Hl]; rewrite Hl in Hd; inversion Hd; reflexivity.
  - intros b Hl. rewrite Hl in Ha. simpl in Ha. inversion Ha. reflexivity.
  - intros [Hl | Hl]; rewrite Hl in Ha; inversion Ha; reflexivity.
Qed.

(** The request of [test_update_example]: [name] and [description] given,
    [is_active] left out. *)
Lemma update_overwrites_given_fields_witness :
  exists r' w',
    ExampleViewSet.update Sample.isoformat
        (Sample.request "" []
           (JObj [("name", JStr "Updated Test Example");
                  ("description", JStr "Updated description")]))
        "1" (Sample.world 2 100)
      = (Return (Response.mk
                   (Item (ExampleResponse.from_model Sample.isoformat r'))
                   status.HTTP_200_OK), w')
    /\ ExampleModel.name r' = "Updated Test Example"
    /\ ExampleModel.description r' = "Updated description"
    /\ ExampleModel.is_active r' = true.
Proof.
  destruct (update_overwrites_given_fields Sample.isoformat
              (Sample.request "" []
                 (JObj [("name", JStr "Updated Test Example");
                        ("description", JStr "Updated description")]))
              "1" (Sample.world 2 100) (Sample.row 1)
              [("name", JStr "Updated Test Example");
               ("description", JStr "Updated description")])
    as [r' [w' [Hrun [_ [_ [_ [_ [Hn [_ [Hd [_ [_ Ha]]]]]]]]]]]].
  - reflexivity.
  - reflexivity.
  - eexists. reflexivity.
  - exists r', w'. split; [exact Hrun|]. repeat split.
    + now apply Hn.
    + now apply Hd.
    + rewrite Ha; [reflexivity | left; reflexivity].
Defined.

Lemma optional_accepts {A} (validator : string -> json -> ErrorDetails + A)
    (p : json -> bool) f kwargs :
  (forall v, (exists a, validator f v = inr a) <-> p v = true) ->
  (exists o, Field.optional validator f kwargs = inr o) <->
  (forall v, lookup f kwargs = Some v -> null_or p v = true).
Proof.
  intros Hp. unfold Field.optional. split.
  - intros [o H] v Hv. rewrite Hv in H.
    destruct v; try reflexivity; simpl; apply Hp;
      match type of H with
      | context [validator f ?x] =>
          destruct (validator f x) as [e|a]; [discriminate | eauto]
      end.
  - intros H. destruct (lookup f kwargs) as [v|]; [|eauto].
    specialize (H v eq_refl).
    destruct v; eauto; simpl in H; apply Hp in H; destruct H as [a Ha];
      rewrite Ha; eauto.
Qed.

Lemma str_1_255_name_like f v :
  (exists s, Field.str_1_255 f v = inr s) <-> name_like v = true.
Proof.
  unfold name_like. split.
  - intros [s H]. apply str_1_255_inr in H. destruct H as [-> Hlen].
    apply andb_true_iff. split; apply Nat.leb_le; lia.
  - destruct v; try discriminate. intros H.
    apply andb_true_iff in H. destruct H as [H1 H2].
    apply Nat.leb_le in H1, H2.
    exists s. apply str_1_255_inr. split; [reflexivity | lia].
Qed.

(** X14. The Update schema accepts a payload exactly when each of [name],
    [description] and [is_active] is left out, null, or what the Create
    schema asks of it: [name] a text of 1 to 255 characters, [description] a
    text, [is_active] a boolean or a value read as one.  In particular the
    empty object is accepted: no field is required. *)
Theorem update_accepts_iff :
  forall kwargs,
    update_accepts kwargs <->
    (forall v, lookup "name" kwargs = Some v -> null_or name_like v = true) /\
    (forall v, lookup "description" kwargs = Some v ->
               text_or_null v = true) /\
    (forall v, lookup "is_active" kwargs = Some v ->
               null_or boolean_like v = true).
Proof.
  intros kwargs. unfold update_accepts.
  destruct (optional_accepts Field.str_1_255 name_like "name" kwargs
              (str_1_255_name_like "name")) as [Pn1 Pn2].
  destruct (optional_description_inr kwargs) as [Pd1 Pd2].
  destruct (optional_accepts Field.bool boolean_like "is_active" kwargs
              (bool_inr_like "is_active")) as [Pa1 Pa2].
  split.
  - intros [v H]. apply update_init_inr in H. destruct H as [Hn [Hd Ha]].
    split; [|split].
    + apply Pn1. eauto.
    + apply Pd1. eauto.
    + apply Pa1. eauto.
  - intros [Hn [Hd Ha]].
    destruct (Pn2 Hn) as [n En].
    destruct (Pd2 Hd) as [d Ed].
    destruct (Pa2 Ha) as [a Ea].
    exists (ExampleUpdateRequest.mk n d a).
    unfold ExampleUpdateRequest.init. rewrite En, Ed, Ea. reflexivity.
Qed.

(** The empty object passes the Update schema. *)
Lemma update_accepts_iff_witness : update_accepts [].
Proof.
  apply (update_accepts_iff []).
  repeat split; intros v H; discriminate H.
Defined.

(** X15. Update with the empty object on a stored row answers 200 and
    changes nothing of the row but [updated_at], which becomes the clock
    reading of the save. *)
Theorem update_empty_payload_touches :
  forall isoformat request pk w r,
    objects.get pk w = (Return r, w) ->
    Request.data request = JObj [] ->
    let r' := ExampleModel.mk (ExampleModel.id r) (ExampleModel.name r)
                (ExampleModel.description r) (ExampleModel.is_active r)
                (ExampleModel.created_at r) (clock w (ticks w)) in
    exists w',
      ExampleViewSet.update isoformat request pk w
        = (Return (Response.mk (Item (ExampleResponse.from_model isoformat r'))
                     status.HTTP_200_OK), w')
      /\ objects.get pk w' = (Return r', w').
Proof.
  intros iso request pk w r Hget Hdata r'.
  eexists. split.
  - apply (update_accepted iso request pk w r []
             (ExampleUpdateRequest.mk None None None) Hget Hdata eq_refl).
  - apply (get_after_save pk w r _ _ _ _ Hget). reflexivity.
Qed.

Lemma update_empty_payload_touches_witness :
  exists w',
    ExampleViewSet.update Sample.isoformat (Sample.request "" [] (JObj []))
        "1" (Sample.world 2 100)
    = (Return (Response.mk
                 (Item (ExampleResponse.mk 1 "item 1" "sample" true
                          "T1" "T100"))
                 status.HTTP_200_OK), w').
Proof.
  destruct (update_empty_payload_touches Sample.isoformat
              (Sample.request "" [] (JObj [])) "1" (Sample.world 2 100)
              (Sample.row 1) eq_refl eq_refl)
    as [w' [Hrun _]].
  exists w'. exact Hrun.
Defined.

Lemma keys_after_save k r' (l : list ExampleModel.t) :
  ExampleModel.id r' = k ->
  map ExampleModel.id
      (map (fun x => if ExampleModel.id x =? k then r' else x) l)
  = map ExampleModel.id l.
Proof.
  intros Hid. induction l as [|x l IH]; simpl; [reflexivity|].
  rewrite IH. destruct (ExampleModel.id x =? k) eqn:E; [|reflexivity].
  apply Z.eqb_eq in E. congruence.
Qed.

(** What Update does to the world: nothing, or the rows under the key of a
    stored row are overwritten with the saved row and one clock reading is
    taken. *)
Lemma update_world isoformat request pk w :
  snd (ExampleViewSet.update isoformat request pk w) = w
  \/ exists r r',
       objects.get pk w = (Return r, w)
       /\ In r (rows w)
       /\ ExampleModel.id r' = ExampleModel.id r
       /\ ExampleModel.created_at r' = ExampleModel.created_at r
       /\ ExampleModel.updated_at r' = clock w (ticks w)
       /\ snd (ExampleViewSet.update isoformat request pk w)
          = mkWorld (map (fun x => if ExampleModel.id x =? ExampleModel.id r
                                   then r' else x)
                         (rows w))
                    (next_pk w) (clock w) (S (ticks w)).
Proof.
  destruct (get_or_404_cases pk w) as [[r [Hget [Hin _]]] | [e He]].
  - destruct (Request.data request) as [ | | | | | |kwargs] eqn:Hd;
      try (left; unfold ExampleViewSet.update; unfold bind at 1;
           rewrite (get_or_404_found _ _ _ Hget);
           unfold bind; rewrite Hd; reflexivity).
    destruct (ExampleUpdateRequest.init kwargs) as [errors|v] eqn:Hinit.
    + left. now rewrite (update_rejected isoformat request pk w r kwargs errors).
    + right.
      rewrite (update_accepted isoformat request pk w r kwargs v Hget Hd Hinit).
      exists r. eexists.
      split; [exact Hget|]. split; [exact Hin|].
      split; [|split; [|split; [|reflexivity]]]; reflexivity.
  - left. unfold ExampleViewSet.update, bind. now rewrite He.
Qed.

(** X16. Update, whatever the key, the payload and the outcome, adds and
    removes no row, keeps every key in its place, leaves each row under a
    key other than the one addressed exactly as it was and does not move the
    key counter. *)
Theorem update_touches_one_key :
  forall isoformat request pk w,
    let w' := snd (ExampleViewSet.update isoformat request pk w) in
    keys w' = keys w
    /\ next_pk w' = next_pk w
    /\ (forall i x, nth_error (rows w) i = Some x ->
                    Text.int_of_str pk <> Some (ExampleModel.id x) ->
                    nth_error (rows w') i = Some x).
Proof.
  intros iso request pk w w'.
  destruct (update_world iso request pk w)
    as [Hsame | [r [r' [Hget [_ [Hid [_ [_ Hw]]]]]]]]; unfold w'.
  - rewrite Hsame. repeat split; auto.
  - rewrite Hw. unfold keys. cbn [rows next_pk].
    split; [now apply keys_after_save|]. split; [reflexivity|].
    intros i x Hnth Hx.
    destruct (get_found _ _ _ Hget) as [Hkey _].
    rewrite nth_error_map, Hnth. simpl.
    replace (ExampleModel.id x =? ExampleModel.id r) with false;
      [reflexivity|].
    symmetry. apply Z.eqb_neq. intros E. apply Hx. now rewrite E.
Qed.

Lemma update_touches_one_key_witness :
  keys (snd (ExampleViewSet.update Sample.isoformat
               (Sample.request "" [] (JObj [("name", JStr "renamed")])) "1"
               (Sample.world 2 100)))
  = [1; 2].
Proof.
  apply (update_touches_one_key Sample.isoformat
           (Sample.request "" [] (JObj [("name", JStr "renamed")])) "1"
           (Sample.world 2 100)).
Defined.

(** X17. After an Update that went through, Retrieve on the same key answers
    with the very item Update answered with. *)
Theorem update_then_retrieve :
  forall isoformat request again pk k w,
    Text.int_of_str pk = Some k ->
    stored k w = true ->
    forall kwargs,
      Request.data request = JObj kwargs ->
      update_accepts kwargs ->
      exists item w',
        ExampleViewSet.update isoformat request pk w
          = (Return (Response.mk (Item item) status.HTTP_200_OK), w')
        /\ ExampleViewSet.retrieve isoformat again pk w'
          = (Return (Response.mk (Item item) status.HTTP_200_OK), w').
Proof.
  intros iso request again pk k w Hk Hs kwargs Hdata [v Hinit].
  destruct (get_stored pk k w Hk Hs) as [r [Hget _]].
  do 2 eexists.
  split; [apply (update_accepted iso request pk w r kwargs v Hget Hdata Hinit)|].
  apply retrieve_found.
  apply (get_after_save pk w r _ _ _ _ Hget). reflexivity.
Qed.

Lemma update_then_retrieve_witness :
  exists item w',
    ExampleViewSet.update Sample.isoformat
        (Sample.request "" [] (JObj [("name", JStr "Updated Test Example")]))
        "1" (Sample.world 2 100)
      = (Return (Response.mk (Item item) status.HTTP_200_OK), w')
    /\ ExampleViewSet.retrieve Sample.isoformat (Sample.request "" [] JNull)
         "1" w'
      = (Return (Response.mk (Item item) status.HTTP_200_OK), w').
Proof.
  apply (update_then_retrieve Sample.isoformat
           (Sample.request "" [] (JObj [("name", JStr "Updated Test Example")]))
           (Sample.request "" [] JNull) "1" 1 (Sample.world 2 100) eq_refl
           eq_refl [("name", JStr "Updated Test Example")] eq_refl).
  eexists. reflexivity.
Defined.

(** ** What the three writing views do to the world *)

Lemma create_world isoformat request w :
  snd (ExampleViewSet.create isoformat request w) = w
  \/ exists r,
       ExampleModel.id r = next_pk w
       /\ ExampleModel.created_at r = clock w (ticks w)
       /\ ExampleModel.updated_at r = clock w (S (ticks w))
       /\ snd (ExampleViewSet.create isoformat request w)
          = mkWorld (rows w ++ [r])%list (next_pk w + 1) (clock w)
                    (S (S (ticks w))).
Proof.
  destruct (Request.data request) as [ | | | | | |kwargs] eqn:Hd;
    try (left; unfold ExampleViewSet.create, bind; rewrite Hd; reflexivity).
  destruct (ExampleCreateRequest.init kwargs) as [errors|v] eqn:Hinit.
  - left. now rewrite (create_rejected isoformat request kwargs errors).
  - right. rewrite (create_accepted isoformat request kwargs v w Hd Hinit).
    eexists. split; [|split; [|split; [|reflexivity]]]; reflexivity.
Qed.

Lemma destroy_world request pk w :
  snd (ExampleViewSet.destroy request pk w) = w
  \/ exists k,
       snd (ExampleViewSet.destroy request pk w)
       = mkWorld (filter (fun x => negb (ExampleModel.id x =? k)) (rows w))
                 (next_pk w) (clock w) (ticks w).
Proof.
  destruct (get_or_404_cases pk w) as [[r [Hget _]] | [e He]].
  - right. exists (ExampleModel.id r).
    now rewrite (destroy_found request pk w r Hget).
  - left. unfold ExampleViewSet.destroy, bind. now rewrite He.
Qed.

(** ** Keys *)

Lemma distinct_appended (l : list Z) n :
  distinct l = true ->
  forallb (fun k => k <? n) l = true ->
  distinct (l ++ [n]) = true.
Proof.
  induction l as [|k l IH]; simpl; [reflexivity|].
  intros Hd Hb.
  apply andb_true_iff in Hd. destruct Hd as [Hk Hd].
  apply andb_true_iff in Hb. destruct Hb as [Hkn Hb].
  apply andb_true_iff. split; [|now apply IH].
  rewrite existsb_app. simpl.
  apply negb_true_iff in Hk. rewrite Hk. simpl.
  apply Z.ltb_lt in Hkn.
  replace (k =? n) with false by (symmetry; apply Z.eqb_neq; lia).
  reflexivity.
Qed.

Lemma below_next (l : list Z) n :
  forallb (fun k => k <? n) l = true ->
  forallb (fun k => k <? n + 1) (l ++ [n]) = true.
Proof.
  intros H. rewrite forallb_app. apply andb_true_iff. split.
  - apply forallb_forall. intros k Hin.
    pose proof (proj1 (forallb_forall _ _) H k Hin) as Hk.
    apply Z.ltb_lt in Hk. apply Z.ltb_lt. lia.
  - simpl. replace (n <? n + 1) with true
      by (symmetry; apply Z.ltb_lt; lia).
    reflexivity.
Qed.

Lemma existsb_filtered k (f : ExampleModel.t -> bool) l :
  existsb (Z.eqb k) (map ExampleModel.id l) = false ->
  existsb (Z.eqb k) (map ExampleModel.id (filter f l)) = false.
Proof.
  induction l as [|x l IH]; simpl; [reflexivity|].
  intros H. apply orb_false_iff in H. destruct H as [Hx Hl].
  destruct (f x); simpl; [rewrite Hx|]; now apply IH.
Qed.

Lemma distinct_filtered (f : ExampleModel.t -> bool) l :
  distinct (map ExampleModel.id l) = true ->
  distinct (map ExampleModel.id (filter f l)) = true.
Proof.
  induction l as [|x l IH]; simpl; [reflexivity|].
  intros H. apply andb_true_iff in H. destruct H as [Hx Hl].
  destruct (f x); simpl; [|now apply IH].
  apply andb_true_iff. split; [|now apply IH].
  apply negb_true_iff. apply negb_true_iff in Hx.
  now apply existsb_filtered.
Qed.

Lemma below_filtered n (f : ExampleModel.t -> bool) l :
  forallb (fun k => k <? n) (map ExampleModel.id l) = true ->
  forallb (fun k => k <? n) (map ExampleModel.id (filter f l)) = true.
Proof.
  induction l as [|x l IH]; simpl; [reflexivity|].
  intros H. apply andb_true_iff in H. destruct H as [Hx Hl].
  destruct (f x); simpl; [rewrite Hx|]; now apply IH.
Qed.

(** X18. Create, Update and Destroy keep the primary keys unique and below
    the key counter, whatever the request and the outcome. *)
Theorem keys_stay_unique :
  forall isoformat request pk w,
    well_keyed w = true ->
    well_keyed (snd (ExampleViewSet.create isoformat request w)) = true
    /\ well_keyed (snd (ExampleViewSet.update isoformat request pk w)) = true
    /\ well_keyed (snd (ExampleViewSet.destroy request pk w)) = true.
Proof.
  intros iso request pk w Hwk.
  pose proof Hwk as Hwk'. unfold well_keyed in Hwk'.
  apply andb_true_iff in Hwk'. destruct Hwk' as [Hd Hb].
  split; [|split].
  - destruct (create_world iso request w) as [-> | [r [Hid [_ [_ ->]]]]];
      [exact Hwk|].
    unfold well_keyed, keys in *. cbn [rows next_pk].
    rewrite map_app. simpl. rewrite Hid.
    apply andb_true_iff. split;
      [now apply distinct_appended | now apply below_next].
  - destruct (update_world iso request pk w)
      as [-> | [r [r' [_ [_ [Hid [_ [_ ->]]]]]]]]; [exact Hwk|].
    unfold well_keyed, keys in *. cbn [rows next_pk].
    rewrite (keys_after_save (ExampleModel.id r) r' (rows w) Hid). exact Hwk.
  - destruct (destroy_world request pk w) as [-> | [k ->]]; [exact Hwk|].
    unfold well_keyed, keys in *. cbn [rows next_pk].
    apply andb_true_iff. split;
      [now apply distinct_filtered | now apply below_filtered].
Qed.

Lemma keys_stay_unique_witness :
  well_keyed
    (snd (ExampleViewSet.create Sample.isoformat
            (Sample.request "" [] (JObj [("name", JStr "New Test Example")]))
            (Sample.world 2 100)))
  = true.
Proof.
  apply (keys_stay_unique Sample.isoformat
           (Sample.request "" [] (JObj [("name", JStr "New Test Example")]))
           "1" (Sample.world 2 100)).
  reflexivity.
Defined.

(** ** Timestamps *)

Lemma in_time_later (l : list ExampleModel.t) (now later : Z) :
  now <= later ->
  forallb (fun r =>
             (ExampleModel.created_at r <=? ExampleModel.updated_at r)
             && (ExampleModel.updated_at r <=? now)) l = true ->
  forallb (fun r =>
             (ExampleModel.created_at r <=? ExampleModel.updated_at r)
             && (ExampleModel.updated_at r <=? later)) l = true.
Proof.
  intros Hle H. apply forallb_forall. intros r Hin.
  pose proof (proj1 (forallb_forall _ _) H r Hin) as Hr.
  apply andb_true_iff in Hr. destruct Hr as [H1 H2].
  apply andb_true_iff. split; [exact H1|].
  apply Z.leb_le in H2. apply Z.leb_le. lia.
Qed.

(** X19. With a clock that never runs backwards, Create, Update and Destroy
    keep every stored row with [created_at] no later than [updated_at], and
    [updated_at] no later than the next clock reading. *)
Theorem timestamps_stay_ordered :
  forall isoformat request pk w,
    monotone w ->
    in_time w = true ->
    in_time (snd (ExampleViewSet.create isoformat request w)) = true
    /\ in_time (snd (ExampleViewSet.update isoformat request pk w)) = true
    /\ in_time (snd (ExampleViewSet.destroy request pk w)) = true.
Proof.
  intros iso request pk w Hmono Hin.
  split; [|split].
  - destruct (create_world iso request w) as [-> | [r [_ [Hc [Hu ->]]]]];
      [exact Hin|].
    unfold in_time in *. cbn [rows clock ticks].
    rewrite forallb_app. apply andb_true_iff. split.
    + apply (in_time_later (rows w) (clock w (ticks w))); [|exact Hin].
      apply Hmono. lia.
    + simpl. rewrite Hc, Hu.
      apply andb_true_iff. split; [|reflexivity].
      apply andb_true_iff. split; apply Z.leb_le; apply Hmono; lia.
  - destruct (update_world iso request pk w)
      as [-> | [r [r' [_ [Hr [_ [Hc [Hu ->]]]]]]]]; [exact Hin|].
    unfold in_time in *. cbn [rows clock ticks].
    pose proof (proj1 (forallb_forall _ _) Hin r Hr) as Hrow.
    apply andb_true_iff in Hrow. destruct Hrow as [H1 H2].
    apply Z.leb_le in H1, H2.
    assert (Hstep : clock w (ticks w) <= clock w (S (ticks w)))
      by (apply Hmono; lia).
    apply forallb_forall. intros x Hx.
    apply in_map_iff in Hx. destruct Hx as [y [Hy Hyin]].
    destruct (ExampleModel.id y =? ExampleModel.id r).
    + subst x. rewrite Hc, Hu.
      apply andb_true_iff. split; apply Z.leb_le; lia.
    + subst x.
      pose proof (proj1 (forallb_forall _ _) Hin y Hyin) as Hy.
      apply andb_true_iff in Hy. destruct Hy as [Hy1 Hy2].
      apply Z.leb_le in Hy2.
      apply andb_true_iff. split; [exact Hy1|]. apply Z.leb_le. lia.
  - destruct (destroy_world request pk w) as [-> | [k ->]]; [exact Hin|].
    unfold in_time in *. cbn [rows clock ticks].
    apply forallb_forall. intros x Hx. apply filter_In in Hx.
    apply (proj1 (forallb_forall _ _) Hin x). tauto.
Qed.

Lemma timestamps_stay_ordered_witness :
  in_time
    (snd (ExampleViewSet.update Sample.isoformat
            (Sample.request "" [] (JObj [("name", JStr "renamed")])) "1"
            (Sample.world 2 100)))
  = true.
Proof.
  apply (timestamps_stay_ordered Sample.isoformat
           (Sample.request "" [] (JObj [("name", JStr "renamed")])) "1"
           (Sample.world 2 100)).
  - intros i j Hij. cbv [Sample.world clock]. lia.
  - reflexivity.
Defined.

(** ** The default order and the pages *)

Lemma insert_desc_perm r l :
  Permutation (objects.insert_desc r l) (r :: l).
Proof.
  induction l as [|x l IH]; simpl; [apply Permutation_refl|].
  destruct (ExampleModel.created_at x <=? ExampleModel.created_at r).
  - apply Permutation_refl.
  - apply perm_trans with (x :: r :: l).
    + now apply perm_skip.
    + apply perm_swap.
Qed.

Lemma ordered_perm l : Permutation (objects.ordered l) l.
Proof.
  induction l as [|x l IH]; simpl; [apply perm_nil|].
  apply perm_trans with (x :: objects.ordered l).
  - apply insert_desc_perm.
  - now apply perm_skip.
Qed.

Lemma insert_desc_sorted r l :
  StronglySorted newer_first l ->
  StronglySorted newer_first (objects.insert_desc r l).
Proof.
  induction l as [|x l IH]; simpl; intros Hs.
  - repeat constructor.
  - apply StronglySorted_inv in Hs. destruct Hs as [Hl Hx].
    destruct (Z.leb_spec (ExampleModel.created_at x)
                (ExampleModel.created_at r)) as [Hle|Hgt].
    + constructor; [constructor; assumption|].
      constructor; [exact Hle|].
      apply Forall_forall. intros y Hy.
      pose proof (proj1 (Forall_forall _ _) Hx y Hy) as Hxy.
      unfold newer_first in *. lia.
    + constructor; [now apply IH|].
      apply Forall_forall. intros y Hy.
      apply (Permutation_in _ (insert_desc_perm r l)) in Hy.
      destruct Hy as [<- | Hy].
      * unfold newer_first. lia.
      * apply (proj1 (Forall_forall _ _) Hx y Hy).
Qed.

Lemma ordered_sorted l : StronglySorted newer_first (objects.ordered l).
Proof.
  induction l as [|x l IH]; simpl; [constructor|].
  now apply insert_desc_sorted.
Qed.

(** X20. The default queryset holds every stored row exactly once, newest
    first: it is a rearrangement of the table in which no row comes before a
    row created later. *)
Theorem all_is_newest_first :
  forall w,
    exists qs,
      objects.all w = (Return qs, w)
      /\ Permutation qs (rows w)
      /\ StronglySorted newer_first qs.
Proof.
  intros w. exists (objects.ordered (rows w)).
  split; [reflexivity|]. split; [apply ordered_perm | apply ordered_sorted].
Qed.

(** X21. On page [page], when its offset [20 * (page - 1)] fits a signed
    64-bit integer, the item at place [i] (counted from 0, below 20) is the
    row at place [20 * (page - 1) + i] of the default order; where the order
    has no such row the page has no such item. *)
Theorem list_item_position :
  forall isoformat request w page i,
    requested_page request = Some page ->
    1 <= page ->
    20 * (page - 1) <= objects.max_offset ->
    (i < 20)%nat ->
    exists body,
      ExampleViewSet.list_ isoformat request w
        = (Return (Response.mk (Page body) status.HTTP_200_OK), w)
      /\ nth_error (ExampleListResponse.results body) i
         = option_map (ExampleResponse.from_model isoformat)
             (nth_error (objects.ordered (rows w))
                (Z.to_nat (20 * (page - 1)) + i)).
Proof.
  intros iso request w page i Hpage Hpos Hmax Hi.
  eexists. split; [apply (list_page iso request w page Hpage Hpos); lia|].
  cbn [ExampleListResponse.results].
  rewrite nth_error_map, nth_error_firstn.
  replace (i <? 20)%nat with true by (symmetry; now apply Nat.ltb_lt).
  rewrite nth_error_skipn.
  replace ((page - 1) * 20) with (20 * (page - 1)) by lia.
  reflexivity.
Qed.

(** The second item of page 2 of 25 rows is the 22nd newest: row 4. *)
Lemma list_item_position_witness :
  exists body,
    ExampleViewSet.list_ Sample.isoformat
        (Sample.request "page=2" [("page", "2")] JNull) (Sample.world 25 100)
      = (Return (Response.mk (Page body) status.HTTP_200_OK),
         Sample.world 25 100)
    /\ nth_error (ExampleListResponse.results body) 1
       = Some (ExampleResponse.from_model Sample.isoformat (Sample.row 4)).
Proof.
  destruct (list_item_position Sample.isoformat
              (Sample.request "page=2" [("page", "2")] JNull)
              (Sample.world 25 100) 2 1)
    as [body [Hrun Hnth]].
  - reflexivity.
  - lia.
  - vm_compute. discriminate.
  - lia.
  - exists body. split; [exact Hrun|]. rewrite Hnth. reflexivity.
Defined.

(** X22. A page whose offset [20 * (page - 1)] fits a signed 64-bit integer
    holds the rows left from its first place on, 20 at most: the number of
    its items is the smaller of 20 and the number of rows from that place to
    the end of the table. *)
Theorem list_page_length :
  forall isoformat request w page,
    requested_page request = Some page ->
    1 <= page ->
    20 * (page - 1) <= objects.max_offset ->
    exists body,
      ExampleViewSet.list_ isoformat request w
        = (Return (Response.mk (Page body) status.HTTP_200_OK), w)
      /\ List.length (ExampleListResponse.results body)
         = Nat.min 20 (List.length (rows w) - Z.to_nat (20 * (page - 1))).
Proof.
  intros iso request w page Hpage Hpos Hmax.
  eexists. split; [apply (list_page iso request w page Hpage Hpos); lia|].
  cbn [ExampleListResponse.results].
  rewrite length_map, length_firstn, length_skipn, length_ordered.
  replace ((page - 1) * 20) with (20 * (page - 1)) by lia.
  reflexivity.
Qed.

(** The 2 rows of [test_list_examples] come back on one page. *)
Lemma list_page_length_witness :
  exists body,
    ExampleViewSet.list_ Sample.isoformat (Sample.request "" [] JNull)
        (Sample.world 2 100)
      = (Return (Response.mk (Page body) status.HTTP_200_OK),
         Sample.world 2 100)
    /\ List.length (ExampleListResponse.results body) = 2%nat.
Proof.
  destruct (list_page_length Sample.isoformat (Sample.request "" [] JNull)
              (Sample.world 2 100) 1)
    as [body [Hrun Hlen]].
  - reflexivity.
  - lia.
  - vm_compute. discriminate.
  - exists body. split; [exact Hrun | exact Hlen].
Defined.

(** X23. A page past the last row is not an error as long as its offset
    [20 * (page - 1)] fits a signed 64-bit integer: List answers 200 with no
    items and no [next] link, [count] still being the number of stored rows.
    Past that offset the engine refuses the query and List ends with a
    [DatabaseError], answered with a server error. *)
Theorem list_beyond_last_page :
  forall isoformat request w page,
    requested_page request = Some page ->
    1 <= page ->
    Z.of_nat (List.length (rows w)) <= 20 * (page - 1) ->
    (20 * (page - 1) <= objects.max_offset ->
     exists body,
       ExampleViewSet.list_ isoformat request w
         = (Return (Response.mk (Page body) status.HTTP_200_OK), w)
       /\ ExampleListResponse.results body = []
       /\ ExampleListResponse.next body = None
       /\ ExampleListResponse.count body = Z.of_nat (List.length (rows w)))
    /\ (objects.max_offset < 20 * (page - 1) ->
        ExampleViewSet.list_ isoformat request w
          = (Raise (DatabaseError "datatype mismatch"), w)
        /\ http_status (fst (ExampleViewSet.list_ isoformat request w))
           = status.HTTP_500_INTERNAL_SERVER_ERROR).
Proof.
  intros iso request w page Hpage Hpos Hend. split.
  - intros Hmax.
    eexists. split; [apply (list_page iso request w page Hpage Hpos); lia|].
    cbn [ExampleListResponse.results ExampleListResponse.next
         ExampleListResponse.count].
    split; [|split; [|reflexivity]].
    + rewrite skipn_all2; [reflexivity|].
      rewrite length_ordered. lia.
    + replace ((page - 1) * 20 + 20 <? Z.of_nat (List.length (rows w)))
        with false by (symmetry; apply Z.ltb_ge; lia).
      reflexivity.
  - intros Hfar.
    rewrite (list_far_page iso request w page Hpage) by lia.
    split; reflexivity.
Qed.

(** Page 7 of 25 rows. *)
Lemma list_beyond_last_page_witness :
  exists body,
    ExampleViewSet.list_ Sample.isoformat
        (Sample.request "page=7" [("page", "7")] JNull) (Sample.world 25 100)
      = (Return (Response.mk (Page body) status.HTTP_200_OK),
         Sample.world 25 100)
    /\ ExampleListResponse.results body = []
    /\ ExampleListResponse.count body = 25.
Proof.
  destruct (list_beyond_last_page Sample.isoformat
              (Sample.request "page=7" [("page", "7")] JNull)
              (Sample.world 25 100) 7)
    as [Hnear _].
  - reflexivity.
  - lia.
  - vm_compute. discriminate.
  - destruct Hnear as [body [Hrun [Hres [_ Hcount]]]].
    + vm_compute. discriminate.
    + exists body. split; [exact Hrun|]. split; [exact Hres | exact Hcount].
Defined.

(** X24. On a page whose offset [20 * (page - 1)] fits a signed 64-bit
    integer, the [next] link is absent exactly when no row lies beyond the
    page, and the [previous] link is absent exactly on page 1. *)
Theorem list_links_presence :
  forall isoformat request w page,
    requested_page request = Some page ->
    1 <= page ->
    20 * (page - 1) <= objects.max_offset ->
    exists body,
      ExampleViewSet.list_ isoformat request w
        = (Return (Response.mk (Page body) status.HTTP_200_OK), w)
      /\ (ExampleListResponse.next body = None
          <-> skipn (Z.to_nat (20 * page)) (objects.ordered (rows w)) = [])
      /\ (ExampleListResponse.previous body = None <-> page = 1).
Proof.
  intros iso request w page Hpage Hpos Hmax.
  eexists. split; [apply (list_page iso request w page Hpage Hpos); lia|].
  cbn [ExampleListResponse.next ExampleListResponse.previous].
  split.
  - destruct (Z.ltb_spec ((page - 1) * 20 + 20)
                (Z.of_nat (List.length (rows w)))) as [Hlt|Hge].
    + split; [discriminate|]. intros Hnil.
      apply (f_equal (@List.length _)) in Hnil.
      rewrite length_skipn, length_ordered in Hnil.
      cbn [List.length] in Hnil. lia.
    + split; [|reflexivity]. intros _.
      apply skipn_all2. rewrite length_ordered. lia.
  - destruct (Z.ltb_spec 1 page) as [Hlt|Hge].
    + split; [discriminate | lia].
    + split; [lia | reflexivity].
Qed.

(** Page 2 of 25 rows is the last one, and not the first. *)
Lemma list_links_presence_witness :
  exists body,
    ExampleViewSet.list_ Sample.isoformat
        (Sample.request "page=2" [("page", "2")] JNull) (Sample.world 25 100)
      = (Return (Response.mk (Page body) status.HTTP_200_OK),
         Sample.world 25 100)
    /\ ExampleListResponse.next body = None.
Proof.
  destruct (list_links_presence Sample.isoformat
              (Sample.request "page=2" [("page", "2")] JNull)
              (Sample.world 25 100) 2)
    as [body [Hrun [Hnext _]]].
  - reflexivity.
  - lia.
  - vm_compute. discriminate.
  - exists body. split; [exact Hrun|]. apply Hnext. reflexivity.
Defined.

(** X25. On a request that carries no query string, so that page 1 is
    served, the [next] link, when there are more than 20 rows, is the request
    URI followed by [?page=2], and there is no [previous] link. *)
Theorem list_first_link_without_query :
  forall isoformat request w,
    Request.QUERY_STRING request = "" ->
    Request.GET request = [] ->
    20 < Z.of_nat (List.length (rows w)) ->
    exists body,
      ExampleViewSet.list_ isoformat request w
        = (Return (Response.mk (Page body) status.HTTP_200_OK), w)
      /\ ExampleListResponse.next body
         = Some (Request.uri request ++ "?page=2")
      /\ ExampleListResponse.previous body = None.
Proof.
  intros iso request w Hq Hget Hmore.
  assert (Hpage : requested_page request = Some 1)
    by (unfold requested_page; rewrite Hget; reflexivity).
  eexists. split;
    [apply (list_page iso request w 1 Hpage); [lia | apply near_offset; lia]|].
  cbn [ExampleListResponse.next ExampleListResponse.previous].
  split; [|reflexivity].
  replace ((1 - 1) * 20 + 20 <? Z.of_nat (List.length (rows w))) with true
    by (symmetry; apply Z.ltb_lt; lia).
  unfold Request.build_absolute_uri. rewrite Hq. reflexivity.
Qed.

Lemma list_first_link_without_query_witness :
  exists body,
    ExampleViewSet.list_ Sample.isoformat (Sample.request "" [] JNull)
        (Sample.world 25 100)
      = (Return (Response.mk (Page body) status.HTTP_200_OK),
         Sample.world 25 100)
    /\ ExampleListResponse.next body
       = Some "http://testserver/examples/?page=2".
Proof.
  destruct (list_first_link_without_query Sample.isoformat
              (Sample.request "" [] JNull) (Sample.world 25 100))
    as [body [Hrun [Hnext _]]].
  - reflexivity.
  - reflexivity.
  - vm_compute. reflexivity.
  - exists body. split; [exact Hrun | exact Hnext].
Defined.

(** ** Creating, updating and the listing order *)

Lemma ordered_newest_appended (l : list ExampleModel.t) r :
  forallb (fun x => ExampleModel.created_at x <? ExampleModel.created_at r) l
  = true ->
  objects.ordered (l ++ [r]) = r :: objects.ordered l.
Proof.
  induction l as [|x l IH]; simpl; [reflexivity|].
  intros H. apply andb_true_iff in H. destruct H as [Hx Hl].
  rewrite (IH Hl). simpl.
  apply Z.ltb_lt in Hx.
  replace (ExampleModel.created_at r <=? ExampleModel.created_at x)
    with false by (symmetry; apply Z.leb_gt; exact Hx).
  reflexivity.
Qed.

(** X26. When every stored row was created before the clock reading Create
    takes, the created item is the first item of page 1 of the listing that
    follows. *)
Theorem created_item_is_listed_first :
  forall isoformat request kwargs listing w,
    Request.data request = JObj kwargs ->
    create_accepts kwargs ->
    forallb (fun x => ExampleModel.created_at x <? clock w (ticks w)) (rows w)
    = true ->
    requested_page listing = Some 1 ->
    exists item w' body,
      ExampleViewSet.create isoformat request w
        = (Return (Response.mk (Item item) status.HTTP_201_CREATED), w')
      /\ ExampleViewSet.list_ isoformat listing w'
        = (Return (Response.mk (Page body) status.HTTP_200_OK), w')
      /\ hd_error (ExampleListResponse.results body) = Some item.
Proof.
  intros iso request kwargs listing w Hdata [v Hinit] Hold Hpage.
  do 3 eexists.
  split; [apply (create_accepted iso request kwargs v w Hdata Hinit)|].
  split; [apply list_page; [exact Hpage | lia | apply near_offset; lia]|].
  cbn [ExampleListResponse.results rows].
  change (Z.to_nat ((1 - 1) * 20)) with 0%nat. rewrite skipn_0.
  rewrite ordered_newest_appended by exact Hold.
  reflexivity.
Qed.

(** Two rows created at instants 1 and 2, a third created at instant 100. *)
Lemma created_item_is_listed_first_witness :
  exists item w' body,
    ExampleViewSet.create Sample.isoformat
        (Sample.request "" [] (JObj [("name", JStr "Test Example 2")]))
        (Sample.world 2 100)
      = (Return (Response.mk (Item item) status.HTTP_201_CREATED), w')
    /\ ExampleViewSet.list_ Sample.isoformat (Sample.request "" [] JNull) w'
      = (Return (Response.mk (Page body) status.HTTP_200_OK), w')
    /\ hd_error (ExampleListResponse.results body) = Some item.
Proof.
  apply (created_item_is_listed_first Sample.isoformat
           (Sample.request "" [] (JObj [("name", JStr "Test Example 2")]))
           [("name", JStr "Test Example 2")]
           (Sample.request "" [] JNull) (Sample.world 2 100)).
  - reflexivity.
  - eexists. reflexivity.
  - reflexivity.
  - reflexivity.
Defined.

Lemma same_key_same_row (l : list ExampleModel.t) x r :
  distinct (map ExampleModel.id l) = true ->
  In x l -> In r l ->
  ExampleModel.id x = ExampleModel.id r ->
  x = r.
Proof.
  induction l as [|y l IH]; simpl; [tauto|].
  intros Hd Hx Hr Hid.
  apply andb_true_iff in Hd. destruct Hd as [Hy Hd].
  apply negb_true_iff in Hy.
  assert (Hclash : forall z, In z l ->
                     ExampleModel.id y = ExampleModel.id z -> False).
  { intros z Hz Hyz.
    assert (E : existsb (Z.eqb (ExampleModel.id y)) (map ExampleModel.id l)
                = true).
    { apply existsb_exists. exists (ExampleModel.id z).
      split; [now apply in_map | now apply Z.eqb_eq]. }
    congruence. }
  destruct Hx as [<- | Hx]; destruct Hr as [<- | Hr].
  - reflexivity.
  - exfalso. now apply (Hclash r).
  - exfalso. apply (Hclash x Hx). congruence.
  - now apply IH.
Qed.

Lemma insert_desc_map (g : ExampleModel.t -> ExampleModel.t) x s :
  ExampleModel.created_at (g x) = ExampleModel.created_at x ->
  (forall y, In y s ->
             ExampleModel.created_at (g y) = ExampleModel.created_at y) ->
  objects.insert_desc (g x) (map g s) = map g (objects.insert_desc x s).
Proof.
  intros Hx. induction s as [|y s IH]; simpl; [reflexivity|].
  intros Hs. rewrite Hx, (Hs y (or_introl eq_refl)).
  destruct (ExampleModel.created_at y <=? ExampleModel.created_at x).
  - reflexivity.
  - simpl. rewrite IH; [reflexivity|]. intros z Hz. apply Hs. now right.
Qed.

Lemma ordered_map (g : ExampleModel.t -> ExampleModel.t) l :
  (forall y, In y l ->
             ExampleModel.created_at (g y) = ExampleModel.created_at y) ->
  objects.ordered (map g l) = map g (objects.ordered l).
Proof.
  induction l as [|x l IH]; simpl; [reflexivity|].
  intros H. rewrite IH by (intros y Hy; apply H; now right).
  apply insert_desc_map.
  - apply H. now left.
  - intros y Hy. apply H. right.
    apply (Permutation_in _ (ordered_perm l)). exact Hy.
Qed.

(** X27. With unique keys, Update moves no row in the default order: the
    keys come in the same order before and after, whatever the request and
    the outcome. *)
Theorem update_keeps_the_order :
  forall isoformat request pk w,
    well_keyed w = true ->
    map ExampleModel.id
        (objects.ordered
           (rows (snd (ExampleViewSet.update isoformat request pk w))))
    = map ExampleModel.id (objects.ordered (rows w)).
Proof.
  intros iso request pk w Hwk.
  unfold well_keyed in Hwk. apply andb_true_iff in Hwk.
  destruct Hwk as [Hd _]. unfold keys in Hd.
  destruct (update_world iso request pk w)
    as [-> | [r [r' [_ [Hin [Hid [Hc [_ ->]]]]]]]]; [reflexivity|].
  cbn [rows].
  rewrite ordered_map.
  - apply keys_after_save. exact Hid.
  - intros y Hy.
    destruct (ExampleModel.id y =? ExampleModel.id r) eqn:E; [|reflexivity].
    apply Z.eqb_eq in E.
    rewrite (same_key_same_row (rows w) y r Hd Hy Hin E). exact Hc.
Qed.

Lemma update_keeps_the_order_witness :
  map ExampleModel.id
      (objects.ordered
         (rows (snd (ExampleViewSet.update Sample.isoformat
                       (Sample.request "" [] (JObj [("name", JStr "renamed")]))
                       "1" (Sample.world 3 100)))))
  = [3; 2; 1].
Proof.
  rewrite (update_keeps_the_order Sample.isoformat
             (Sample.request "" [] (JObj [("name", JStr "renamed")])) "1"
             (Sample.world 3 100) eq_refl).
  reflexivity.
Defined.
